(** * pip-services-mongodb-node: connection resolution and identifiable persistence

    A shallow embedding of
    - [src/connect/MongoDbConnectionResolver.ts] (validation of connection
      descriptors and composition of the MongoDB uri), and
    - [src/persistence/MongoDbPersistence.ts] and
      [src/persistence/IdentifiableMongoDbPersistence.ts] (lifecycle and the
      CRUD and paging operations),
    followed by the properties of these functions.

    JavaScript values are modelled as the code uses them: [null] is [None],
    truthiness tests are spelled out, string concatenation renders [null] as
    the text "null", and dereferencing [null] raises a [TypeError]. *)

From Stdlib Require Import String Ascii List ZArith Bool Lia DecimalString.
Import ListNotations.
Open Scope string_scope.

(** ** JavaScript helpers *)

Module Js.

(** The result of running a piece of code that may dereference [null]. *)
Inductive completion (A : Type) : Type :=
| Returned (a : A)
| TypeError.
Arguments Returned {A} a.
Arguments TypeError {A}.

(** [if (s)] for a nullable string: neither [null] nor empty. *)
Definition truthy (s : option string) : bool :=
  match s with
  | Some s => negb (s =? "")
  | None => false
  end.

(** [a || b] on nullable strings. *)
Definition or_else (a b : option string) : option string :=
  if truthy a then a else b.

(** [s.length > 0]. *)
Definition nonempty (s : string) : bool := (0 <? String.length s)%nat.

(** ['' + s] for a nullable string. *)
Definition show (s : option string) : string :=
  match s with
  | Some s => s
  | None => "null"
  end.

(** ['' + n] for an integral number. *)
Definition showNum (n : Z) : string := NilZero.string_of_int (Z.to_int n).

End Js.

Import Js.

(** ** Errors

    The error values that travel through the callbacks. *)

Inductive error : Type :=
| External (description : string)
    (** raised by a collaborator: driver, discovery service, credential store *)
| PlainError (message : string)
    (** [new Error(message)] *)
| ConfigException (correlationId : option string) (code message : string)
| ConnectionException (correlationId : option string) (code message : string)
    (cause : error)
    (** [new ConnectionException(...).withCause(cause)] *).

(** ** ConfigParams: the string map of pip-services-commons-node

    The class belongs to a library outside src/; the resolver enumerates,
    merges and deletes its keys.  The map is kept as the list of its own
    key/value pairs in iteration order; a value is a string or [null]. *)

Module ConfigParams.

Definition t : Type := list (string * option string).

(** Modelled from the spec: assignment [map[key] = value] into the merged
    map of section 4.1, step 5, not part of src/: "insertion order of first
    occurrence", so an existing key keeps its place and takes the new value. *)
Fixpoint put (key : string) (value : option string) (m : t) : t :=
  match m with
  | [] => [(key, value)]
  | (k, v) :: rest =>
      if k =? key then (k, value) :: rest else (k, v) :: put key value rest
  end.

(** Modelled from the spec: copying every field of [src] into [dst]
    (section 4.1, step 5: the later map "wins on key collision"), not part of
    src/. *)
Definition putAll (dst src : t) : t :=
  fold_left (fun acc kv => put (fst kv) (snd kv) acc) src dst.

(** Modelled from the spec: [ConfigParams.mergeConfigs(...configs)], not
    part of src/: "merge all connection descriptors' fields". *)
Definition mergeConfigs (configs : list t) : t :=
  fold_left putAll configs [].

(** Modelled from the spec: [this.override(config)], not part of src/: a
    fresh map holding this map's fields and then those of [config]
    ("credential wins on key collision"); a [null] argument contributes
    nothing. *)
Definition override (m : t) (config : option t) : t :=
  match config with
  | Some c => putAll (putAll [] m) c
  | None => putAll [] m
  end.

(** Modelled from the spec: [this.remove(key)], not part of src/: "strip"
    the key. *)
Definition remove (key : string) (m : t) : t :=
  filter (fun kv => negb (fst kv =? key)) m.

(** Modelled from the spec: [this.getKeys()], not part of src/: the keys in
    "merged-map iteration order". *)
Definition getKeys (m : t) : list string := map fst m.

(** Modelled from the spec: [this.getAsString(key)], not part of src/: the
    value stored under the key, [null] when there is none. *)
Fixpoint getAsString (key : string) (m : t) : option string :=
  match m with
  | [] => None
  | (k, v) :: rest => if k =? key then v else getAsString key rest
  end.

End ConfigParams.

(** ** MongoDbConnectionResolver *)

Module MongoDbConnectionResolver.

(** A connection descriptor, seen through the accessors the resolver calls
    on it: [getUri()], [getHost()], [getPort()],
    [getAsNullableString("database")], and its key/value pairs as
    [mergeConfigs] enumerates them. *)
Record ConnectionParams : Type := {
  getUri : option string;
  getHost : option string;
  getPort : option Z;
  getDatabase : option string;
  connEntries : ConfigParams.t
}.

(** A credential descriptor: [getUsername()], [getPassword()] and its
    key/value pairs. *)
Record CredentialParams : Type := {
  getUsername : option string;
  getPassword : option string;
  credEntries : ConfigParams.t
}.

Definition validateConnection (cid : option string) (connection : ConnectionParams)
  : option error :=
  match getUri connection with
  | Some _ => None
  | None =>
      match getHost connection with
      | None => Some (ConfigException cid "NO_HOST" "Connection host is not set")
      | Some _ =>
          match getPort connection with
          | Some 0%Z =>
              Some (ConfigException cid "NO_PORT" "Connection port is not set")
          | _ =>
              match getDatabase connection with
              | None =>
                  Some (ConfigException cid "NO_DATABASE"
                          "Connection database is not set")
              | Some _ => None
              end
          end
      end
  end.

(** The [for] loop of [validateConnections]. *)
Fixpoint validateEach (cid : option string) (connections : list ConnectionParams)
  : option error :=
  match connections with
  | [] => None
  | connection :: rest =>
      match validateConnection cid connection with
      | Some error => Some error
      | None => validateEach cid rest
      end
  end.

Definition validateConnections (cid : option string)
  (connections : option (list ConnectionParams)) : option error :=
  match connections with
  | None | Some [] =>
      Some (ConfigException cid "NO_CONNECTION" "Database connection is not set")
  | Some connections => validateEach cid connections
  end.

(** First loop of [composeUri]: the first truthy uri. *)
Fixpoint firstUri (connections : list ConnectionParams) : option string :=
  match connections with
  | [] => None
  | connection :: rest =>
      if truthy (getUri connection) then getUri connection else firstUri rest
  end.

(** [host + (port == null ? '' : ':' + port)]. *)
Definition hostPort (connection : ConnectionParams) : string :=
  show (getHost connection) ++
  match getPort connection with
  | None => ""
  | Some port => ":" ++ showNum port
  end.

(** Second loop: the [hosts] accumulator. *)
Definition composeHosts (connections : list ConnectionParams) : string :=
  fold_left
    (fun hosts connection =>
       (if nonempty hosts then hosts ++ "," else hosts) ++ hostPort connection)
    connections "".

(** Third loop: the [database] accumulator, before [.length] is read. *)
Definition pickDatabase (connections : list ConnectionParams) : option string :=
  fold_left (fun database connection => or_else database (getDatabase connection))
    connections (Some "").

(** The authentication part. *)
Definition composeAuth (credential : option CredentialParams) : string :=
  match credential with
  | None => ""
  | Some credential =>
      let username := getUsername credential in
      if truthy username then
        let password := getPassword credential in
        if truthy password
        then show username ++ ":" ++ show password ++ "@"
        else show username ++ "@"
      else ""
  end.

(** The merged options with the five reserved keys removed. *)
Definition composeOptions (connections : list ConnectionParams)
  (credential : option CredentialParams) : ConfigParams.t :=
  let options :=
    ConfigParams.override
      (ConfigParams.mergeConfigs (map connEntries connections))
      (option_map credEntries credential) in
  ConfigParams.remove "password"
    (ConfigParams.remove "username"
       (ConfigParams.remove "database"
          (ConfigParams.remove "port"
             (ConfigParams.remove "host" options)))).

(** The loop over [options.getKeys()] and the ['?'] prefix. *)
Definition composeParams (options : ConfigParams.t) : string :=
  let params :=
    fold_left
      (fun params key =>
         let params := if nonempty params then params ++ "&" else params in
         let params := params ++ key in
         match ConfigParams.getAsString key options with
         | Some value => params ++ "=" ++ value
         | None => params
         end)
      (ConfigParams.getKeys options) "" in
  if nonempty params then "?" ++ params else params.

Definition composeUri (connections : list ConnectionParams)
  (credential : option CredentialParams) : completion string :=
  match firstUri connections with
  | Some uri => Returned uri
  | None =>
      let hosts := composeHosts connections in
      match pickDatabase connections with
      | None => TypeError
      | Some database =>
          let database := if nonempty database then "/" ++ database else database in
          let auth := composeAuth credential in
          let params := composeParams (composeOptions connections credential) in
          Returned ("mongodb://" ++ auth ++ hosts ++ database ++ params)
      end
  end.


(** The order in which the two lookups started by [async.parallel] call
    back. *)
Inductive schedule : Type := ConnectionsFirst | CredentialFirst.

(** What [resolve] does with its callback: [callback(err, null)],
    [callback(null, uri)], or an exception escaping from [composeUri]. *)
Inductive resolution : Type :=
| Failed (err : error)
| Resolved (uri : string)
| Raised.

(** [resolve]: [resolveAll] answers [(err, result)] and [lookup] answers
    [(err, result)]; the first error to arrive ends the operation. *)
Definition resolve (cid : option string)
  (resolveAll : option error * option (list ConnectionParams))
  (lookup : option error * option CredentialParams)
  (order : schedule) : resolution :=
  let connections := snd resolveAll in
  let credential := snd lookup in
  let err1 :=
    match fst resolveAll with
    | Some err => Some err
    | None => validateConnections cid connections
    end in
  let err2 := fst lookup in
  let '(first, second) :=
    match order with
    | ConnectionsFirst => (err1, err2)
    | CredentialFirst => (err2, err1)
    end in
  match first, second with
  | Some err, _ => Failed err
  | None, Some err => Failed err
  | None, None =>
      match connections with
      | None => Raised
      | Some connections =>
          match composeUri connections credential with
          | Returned uri => Resolved uri
          | TypeError => Raised
          end
      end
  end.

End MongoDbConnectionResolver.

(** ** Plain JavaScript objects

    Entities, stored documents, filters and update documents are objects: an
    ordered list of own properties.  Reading an absent property gives
    [undefined], which the code never tells apart from [null]. *)

Module Json.

Inductive value : Type :=
| VNull
| VString (s : string)
| VNumber (n : Z)
| VBool (b : bool).

Definition object : Type := list (string * value).

(** [if (v)]. *)
Definition truthy (v : value) : bool :=
  match v with
  | VNull => false
  | VString s => negb (s =? "")
  | VNumber n => negb (n =? 0)%Z
  | VBool b => b
  end.

(** [v == null]. *)
Definition isNull (v : value) : bool :=
  match v with
  | VNull => true
  | _ => false
  end.

Definition eqb (a b : value) : bool :=
  match a, b with
  | VNull, VNull => true
  | VString x, VString y => (x =? y)%string
  | VNumber x, VNumber y => (x =? y)%Z
  | VBool x, VBool y => Bool.eqb x y
  | _, _ => false
  end.

(** [key in o]. *)
Definition has (key : string) (o : object) : bool :=
  existsb (fun kv => fst kv =? key) o.

(** [o[key]]. *)
Fixpoint get (key : string) (o : object) : value :=
  match o with
  | [] => VNull
  | (k, v) :: rest => if k =? key then v else get key rest
  end.

(** [o[key] = v]: an existing property keeps its place. *)
Fixpoint set (key : string) (v : value) (o : object) : object :=
  match o with
  | [] => [(key, v)]
  | (k, w) :: rest =>
      if k =? key then (k, v) :: rest else (k, w) :: set key v rest
  end.

(** [_.omit(o, key)]. *)
Definition omit (key : string) (o : object) : object :=
  filter (fun kv => negb (fst kv =? key)) o.

(** [_.isEmpty(o)]. *)
Definition isEmpty (o : object) : bool :=
  match o with
  | [] => true
  | _ :: _ => false
  end.

End Json.

(** ** The driver side: documents, statements and the model handle *)

Module Driver.

(** What the driver hands back for a document: [null], an object without a
    [toJSON] method, or a driver document, which carries its fields and
    the object its [toJSON()] produces (the schema decides that object). *)
Inductive stored : Type :=
| Missing
| Plain (o : Json.object)
| Document (fields : Json.object) (toJSON : Json.object).

(** A query built by [find(filter)] and the cursor options chained on it. *)
Record statement : Type := {
  stFilter : Json.object;
  stSkip : option Z;
  stLimit : option Z;
  stSort : option Json.object;
  stSelect : option Json.object
}.

Definition find (filter : Json.object) : statement :=
  {| stFilter := filter; stSkip := None; stLimit := None;
     stSort := None; stSelect := None |}.

Definition skip (n : Z) (st : statement) : statement :=
  {| stFilter := stFilter st; stSkip := Some n; stLimit := stLimit st;
     stSort := stSort st; stSelect := stSelect st |}.

Definition limit (n : Z) (st : statement) : statement :=
  {| stFilter := stFilter st; stSkip := stSkip st; stLimit := Some n;
     stSort := stSort st; stSelect := stSelect st |}.

Definition sort (s : Json.object) (st : statement) : statement :=
  {| stFilter := stFilter st; stSkip := stSkip st; stLimit := stLimit st;
     stSort := Some s; stSelect := stSelect st |}.

Definition select (s : Json.object) (st : statement) : statement :=
  {| stFilter := stFilter st; stSkip := stSkip st; stLimit := stLimit st;
     stSort := stSort st; stSelect := Some s |}.

(** The update argument of [findByIdAndUpdate]: the object itself or
    [{ $set: fields }]. *)
Inductive update : Type :=
| UpdateWith (o : Json.object)
| UpdateSet (o : Json.object).

(** The options object: [{ new: ..., upsert: ... }]. *)
Record options : Type := { new : bool; upsert : bool }.

(** The calls an operation makes on its collaborators, in order. *)
Inductive call : Type :=
| Exec (st : statement)
| Count (filter : Json.object)
| Create (doc : Json.object)
| FindOneAndUpdate (filter doc : Json.object) (opts : options)
| FindByIdAndUpdate (id : Json.value) (upd : update) (opts : options)
| FindByIdAndRemove (id : Json.value)
| Remove (filter : Json.object)
| NextLong.

(** The Mongoose model handle [this._model]: for each call, the
    [(err, result)] pair its callback receives. *)
Record Model : Type := {
  exec : statement -> option error * option (list stored);
  count : Json.object -> option error * Z;
  create : Json.object -> option error * stored;
  findOneAndUpdate : Json.object -> Json.object -> options -> option error * stored;
  findByIdAndUpdate : Json.value -> update -> options -> option error * stored;
  findByIdAndRemove : Json.value -> option error * stored;
  remove : Json.object -> option error * Z
}.

(** How an operation ends: its callback is invoked with [(err, result)],
    it returns without a callback to invoke, or a [TypeError] escapes. *)
Inductive outcome (A : Type) : Type :=
| Called (err : option error) (result : A)
| Silent
| Threw.
Arguments Called {A} err result.
Arguments Silent {A}.
Arguments Threw {A}.

End Driver.

Import Driver.

(** ** PagingParams and DataPage *)

Module PagingParams.

Record t : Type := {
  skip : option Z;
  take : option Z;
  total : option bool
}.

(** Modelled from the spec: [new PagingParams()] of pip-services-commons-node,
    which is not part of src/: no skip, no take, and no total requested. *)
Definition empty : t := {| skip := None; take := None; total := None |}.

(** Modelled from the spec: [PagingParams.getSkip(minSkip)], not part of
    src/: the optional skip count, [minSkip] when it is absent. *)
Definition getSkip (p : t) (minSkip : Z) : Z :=
  match skip p with
  | Some s => s
  | None => minSkip
  end.

(** Modelled from the spec: [PagingParams.getTake(maxTake)], not part of
    src/: the optional take count, which "defaults to engine's configured
    max page size". *)
Definition getTake (p : t) (maxTake : Z) : Z :=
  match take p with
  | Some n => n
  | None => maxTake
  end.

(** [if (paging.total)]. *)
Definition wantsTotal (p : t) : bool :=
  match total p with
  | Some b => b
  | None => false
  end.

End PagingParams.

Module DataPage.

(** [new DataPage(items, total)]: the items and the optional total. *)
Record t : Type := {
  data : list (option Json.object);
  total : option Z
}.

End DataPage.

(** ** MongoDbPersistence *)

Module MongoDbPersistence.

(** The fields of [this] that the modelled methods read. *)
Record t : Type := {
  _collection : option string;
  _model : option Model
}.

(** [convertToPublic]: [if (value && value.toJSON) value = value.toJSON()]. *)
Definition convertToPublic (value : stored) : option Json.object :=
  match value with
  | Missing => None
  | Plain o => Some o
  | Document _ toJSON => Some toJSON
  end.

Definition convertFromPublic (value : Json.object) : Json.object := value.

Definition clear (this : t) (correlationId : option string) (callback : bool)
  : list call * outcome unit :=
  match _collection this with
  | None =>
      ([], if callback
           then Called (Some (PlainError "Collection name is not defined")) tt
           else Silent)
  | Some _ =>
      match _model this with
      | None => ([], Threw)
      | Some model =>
          let err :=
            match fst (remove model []) with
            | Some err =>
                Some (ConnectionException correlationId "CONNECT_FAILED"
                        "Connection to mongodb failed" err)
            | None => None
            end in
          ([Remove []], if callback then Called err tt else Silent)
      end
  end.

End MongoDbPersistence.

(** ** IdentifiableMongoDbPersistence *)

Module IdentifiableMongoDbPersistence.

Import MongoDbPersistence.

(** The fields of [this].  The constructor throws unless both the
    collection name and the schema are given, so the model handle is bound. *)
Record t : Type := {
  _collection : string;
  _model : Model;
  _maxPageSize : Z
}.

Definition convertFromPublicPartial (value : Json.object) : Json.object :=
  convertFromPublic value.

(** [sort && !_.isEmpty(sort)]. *)
Definition given (o : option Json.object) : bool :=
  match o with
  | Some o => negb (Json.isEmpty o)
  | None => false
  end.

(** The statement [getPageByFilter] configures before running it. *)
Definition pageStatement (this : t) (filter : Json.object)
  (paging : option PagingParams.t) (sort select : option Json.object)
  : statement :=
  let paging :=
    match paging with
    | Some paging => paging
    | None => PagingParams.empty
    end in
  let skip := PagingParams.getSkip paging (-1) in
  let take := PagingParams.getTake paging (_maxPageSize this) in
  let statement := Driver.find filter in
  let statement := if (0 <=? skip)%Z then Driver.skip skip statement else statement in
  let statement := Driver.limit take statement in
  let statement :=
    match sort with
    | Some s => if given sort then Driver.sort s statement else statement
    | None => statement
    end in
  match select with
  | Some s => if given select then Driver.select s statement else statement
  | None => statement
  end.

Definition getPageByFilter (this : t) (correlationId : option string)
  (filter : Json.object) (paging : option PagingParams.t)
  (sort select : option Json.object)
  : list call * outcome (option DataPage.t) :=
  let pagingEnabled :=
    PagingParams.wantsTotal
      match paging with
      | Some paging => paging
      | None => PagingParams.empty
      end in
  let statement := pageStatement this filter paging sort select in
  match exec (_model this) statement with
  | (Some err, _) => ([Exec statement], Called (Some err) None)
  | (None, items) =>
      let items :=
        map convertToPublic
          match items with
          | Some items => items
          | None => []
          end in
      if pagingEnabled then
        match count (_model this) filter with
        | (Some err, _) =>
            ([Exec statement; Count filter], Called (Some err) None)
        | (None, count) =>
            ([Exec statement; Count filter],
             Called None
               (Some {| DataPage.data := items; DataPage.total := Some count |}))
        end
      else
        ([Exec statement],
         Called None (Some {| DataPage.data := items; DataPage.total := None |}))
  end.

(** [item.id || IdGenerator.nextLong()]: the key, and whether the generator
    was asked for it.  [nextLong] is the key the generator produces. *)
Definition assignId (nextLong : string) (item : Json.object)
  : list call * Json.value :=
  let id := Json.get "id" item in
  if Json.truthy id then ([], id) else ([NextLong], Json.VString nextLong).

(** The document [create] and [set] build from a non-null item. *)
Definition newDocument (nextLong : string) (item : Json.object) : Json.object :=
  let newItem := Json.omit "id" item in
  let newItem := Json.set "_id" (snd (assignId nextLong item)) newItem in
  convertFromPublic newItem.

Definition create (this : t) (nextLong : string) (correlationId : option string)
  (item : option Json.object) (callback : bool)
  : list call * outcome (option Json.object) :=
  match item with
  | None => ([], if callback then Called None None else Threw)
  | Some item =>
      let newItem := newDocument nextLong item in
      let calls := (fst (assignId nextLong item) ++ [Create newItem])%list in
      match Driver.create (_model this) newItem with
      | (None, Missing) => (calls, Threw)
      | (err, newItem) =>
          (calls, if callback then Called err (convertToPublic newItem) else Threw)
      end
  end.

Definition set (this : t) (nextLong : string) (correlationId : option string)
  (item : option Json.object) (callback : bool)
  : list call * outcome (option Json.object) :=
  match item with
  | None => ([], if callback then Called None None else Silent)
  | Some item =>
      let newItem := newDocument nextLong item in
      let filter := [("_id", Json.get "_id" newItem)] in
      let options := {| new := true; upsert := true |} in
      let '(err, newItem') := findOneAndUpdate (_model this) filter newItem options in
      ((fst (assignId nextLong item) ++ [FindOneAndUpdate filter newItem options])%list,
       if callback then Called err (convertToPublic newItem') else Silent)
  end.

Definition update (this : t) (correlationId : option string)
  (item : option Json.object) (callback : bool)
  : list call * outcome (option Json.object) :=
  match item with
  | None => ([], if callback then Called None None else Silent)
  | Some item =>
      if Json.isNull (Json.get "id" item) then
        ([], if callback then Called None None else Silent)
      else
        let newItem := Json.omit "id" item in
        let newItem := convertFromPublic newItem in
        let options := {| new := true; upsert := false |} in
        let id := Json.get "id" item in
        let '(err, newItem') :=
          findByIdAndUpdate (_model this) id (UpdateWith newItem) options in
        ([FindByIdAndUpdate id (UpdateWith newItem) options],
         if callback then Called err (convertToPublic newItem') else Silent)
  end.

Definition updatePartially (this : t) (correlationId : option string)
  (id : Json.value) (data : option Json.object) (callback : bool)
  : list call * outcome (option Json.object) :=
  match data with
  | None => ([], if callback then Called None None else Silent)
  | Some data =>
      if Json.isNull id then
        ([], if callback then Called None None else Silent)
      else
        let newItem := convertFromPublicPartial data in
        let setItem := UpdateSet newItem in
        let options := {| new := true; upsert := false |} in
        let '(err, newItem') := findByIdAndUpdate (_model this) id setItem options in
        ([FindByIdAndUpdate id setItem options],
         if callback then Called err (convertToPublic newItem') else Silent)
  end.

Definition deleteById (this : t) (correlationId : option string)
  (id : Json.value) (callback : bool)
  : list call * outcome (option Json.object) :=
  let '(err, oldItem) := findByIdAndRemove (_model this) id in
  ([FindByIdAndRemove id],
   if callback then Called err (convertToPublic oldItem) else Silent).

End IdentifiableMongoDbPersistence.

(** ** A reference document store *)

Module DocumentStore.

(** Modelled from the spec: the stored shape of a document returned by the
    document store driver of section 6, which is not part of src/: its
    fields, the primary key among them. *)
Definition fieldsOf (d : stored) : Json.object :=
  match d with
  | Missing => []
  | Plain o => o
  | Document fields _ => fields
  end.

(** Modelled from the spec: "a predicate structure describing which stored
    documents a query should match" (glossary, Filter), not part of src/: a
    document matches when it carries every field value the filter lists. *)
Definition matches (filter : Json.object) (d : stored) : bool :=
  forallb (fun kv => Json.eqb (Json.get (fst kv) (fieldsOf d)) (snd kv)) filter.

(** Modelled from the spec: the driver's limit cursor option (section 6),
    not part of src/; as in MongoDB, 0 means no limit and a negative value
    counts as its absolute value. *)
Definition applyLimit (n : Z) (docs : list stored) : list stored :=
  if (n =? 0)%Z then docs else firstn (Z.abs_nat n) docs.

(** Modelled from the spec: "find(filter)+cursor options(skip/limit)" of
    the document store driver (section 6), not part of src/: the matching
    documents in collection order, after the skip, cut at the limit. *)
Definition find (collection : list stored) (filter : Json.object)
  (skip limit : option Z) : list stored :=
  let found := List.filter (matches filter) collection in
  let found :=
    match skip with
    | Some n => skipn (Z.to_nat n) found
    | None => found
    end in
  match limit with
  | Some n => applyLimit n found
  | None => found
  end.

(** Modelled from the spec: "count(filter)" of the driver (section 6), not
    part of src/. *)
Definition count (collection : list stored) (filter : Json.object) : Z :=
  Z.of_nat (List.length (List.filter (matches filter) collection)).


(** A model handle whose connection is not open: every call comes back
    with the driver's failure. *)
Definition disconnected : Model :=
  let failure := Some (External "not connected") in
  {| exec := fun _ => (failure, None);
     Driver.count := fun _ => (failure, 0%Z);
     create := fun _ => (failure, Missing);
     findOneAndUpdate := fun _ _ _ => (failure, Missing);
     findByIdAndUpdate := fun _ _ _ => (failure, Missing);
     findByIdAndRemove := fun _ => (failure, Missing);
     remove := fun _ => (failure, 0%Z) |}.

(** A model handle that answers queries from [collection] as the reference
    store does; its write calls fail as on [disconnected]. *)
Definition querying (collection : list stored) : Model :=
  {| exec := fun st =>
       (None, Some (find collection (stFilter st) (stSkip st) (stLimit st)));
     Driver.count := fun filter => (None, count collection filter);
     create := create disconnected;
     findOneAndUpdate := findOneAndUpdate disconnected;
     findByIdAndUpdate := findByIdAndUpdate disconnected;
     findByIdAndRemove := findByIdAndRemove disconnected;
     remove := remove disconnected |}.

End DocumentStore.

(** ** The composition rule in the words of the specification

    Section 4.1, steps 2 to 4 and 6: the comma-joined [host[:port]] list, the
    first database name, and the authentication prefix. *)

Module UriSpec.

Import MongoDbConnectionResolver.

Definition hostList (connections : list ConnectionParams) : string :=
  String.concat "," (map hostPort connections).

(** The first database name found across the descriptors, in order; an
    empty name counts as no name. *)
Fixpoint firstDatabase (connections : list ConnectionParams) : option string :=
  match connections with
  | [] => None
  | connection :: rest =>
      match getDatabase connection with
      | Some "" | None => firstDatabase rest
      | Some database => Some database
      end
  end.

Definition databasePart (connections : list ConnectionParams) : string :=
  match firstDatabase connections with
  | Some database => "/" ++ database
  | None => ""
  end.

Definition authPrefix (credential : option CredentialParams) : string :=
  match credential with
  | None => ""
  | Some credential =>
      match getUsername credential with
      | None | Some "" => ""
      | Some username =>
          match getPassword credential with
          | None | Some "" => username ++ "@"
          | Some password => username ++ ":" ++ password ++ "@"
          end
      end
  end.

(** Step 5: one remaining setting, written [key=value], or [key] alone
    when its value is null. *)
Definition setting (kv : string * option string) : string :=
  fst kv ++ match snd kv with
            | Some value => "=" ++ value
            | None => ""
            end.

(** Step 5: the settings joined by "&" behind a "?", or nothing when no
    setting remains. *)
Definition paramsPart (options : ConfigParams.t) : string :=
  match options with
  | [] => ""
  | _ :: _ => "?" ++ String.concat "&" (map setting options)
  end.

End UriSpec.

(** ** Sample descriptors *)

Module Samples.

Import MongoDbConnectionResolver.

(** A descriptor configured with a host, a port and a database only. *)
Definition node (host : string) (port : Z) (database : string) : ConnectionParams :=
  {| getUri := None;
     getHost := Some host;
     getPort := Some port;
     getDatabase := Some database;
     connEntries := [("host", Some host); ("port", Some (showNum port));
                     ("database", Some database)] |}.

(** A credential configured with a user name and a password only. *)
Definition login (username password : string) : CredentialParams :=
  {| getUsername := Some username;
     getPassword := Some password;
     credEntries := [("username", Some username); ("password", Some password)] |}.

(** A descriptor that carries a uri and nothing else. *)
Definition literal (uri : string) : ConnectionParams :=
  {| getUri := Some uri;
     getHost := None;
     getPort := Some 0%Z;
     getDatabase := None;
     connEntries := [("uri", Some uri)] |}.

(** A stored dummy under a schema whose [toJSON] presents the key as
    [id]. *)
Definition dummy (id key : string) : stored :=
  Document [("_id", Json.VString id); ("key", Json.VString key)]
           [("id", Json.VString id); ("key", Json.VString key)].

(** The same document under a schema whose [toJSON] leaves the fields as
    they are stored. *)
Definition rawDummy (id key : string) : stored :=
  Document [("_id", Json.VString id); ("key", Json.VString key)]
           [("_id", Json.VString id); ("key", Json.VString key)].

Definition dummies : list stored :=
  [dummy "1" "a"; dummy "2" "a"; dummy "3" "b"; dummy "4" "a"; dummy "5" "a";
   dummy "6" "a"].

(** A model handle that stores what it is given and answers with the
    document as the schema [toJSON] presents it. *)
Definition accepting (toJSON : Json.object -> Json.object) : Model :=
  {| exec := fun _ => (None, Some []);
     Driver.count := fun _ => (None, 0%Z);
     create := fun doc => (None, Document doc (toJSON doc));
     findOneAndUpdate := fun _ doc _ => (None, Document doc (toJSON doc));
     findByIdAndUpdate := fun _ _ _ => (None, Missing);
     findByIdAndRemove := fun _ => (None, Missing);
     remove := fun _ => (None, 0%Z) |}.

End Samples.

(** ** Lifecycle of MongoDbPersistence: constructor, configure, open, close *)

Module PersistenceOptions.

(** [this._options], seen through the accessors [composeSettings] and
    [open] call on it: five nullable getters and
    [getAsBoolean("replica_set")]. *)
Record t : Type := {
  max_pool_size : option Z;
  keep_alive : option Z;
  connect_timeout : option Z;
  auto_reconnect : option bool;
  max_page_size : option Z;
  debug : option bool;
  replica_set : bool
}.

(** Modelled from the spec: [new ConfigParams()] of pip-services-commons-node,
    not part of src/, seen through the same accessors: nothing is set. *)
Definition empty : t :=
  {| max_pool_size := None; keep_alive := None; connect_timeout := None;
     auto_reconnect := None; max_page_size := None; debug := None;
     replica_set := false |}.

End PersistenceOptions.

Module Lifecycle.

Import MongoDbPersistence.

(** The [settings] object handed to the driver when connecting. *)
Record socketOptions : Type := {
  keepAlive : option Z;
  connectTimeoutMS : option Z
}.

Record server : Type := {
  poolSize : option Z;
  socket : socketOptions;
  auto_reconnect : option bool;
  max_page_size : option Z;
  debug : option bool
}.

Definition composeSettings (options : PersistenceOptions.t) : server :=
  {| poolSize := PersistenceOptions.max_pool_size options;
     socket :=
       {| keepAlive := PersistenceOptions.keep_alive options;
          connectTimeoutMS := PersistenceOptions.connect_timeout options |};
     auto_reconnect := PersistenceOptions.auto_reconnect options;
     max_page_size := PersistenceOptions.max_page_size options;
     debug := PersistenceOptions.debug options |}.

(** [uri.indexOf(needle)]: the first position of [needle], -1 when it does
    not occur. *)
Definition indexOf (needle uri : string) : Z :=
  match String.index 0 needle uri with
  | Some position => Z.of_nat position
  | None => (-1)%Z
  end.

(** [this._connection.open] and [this._connection.openSet]. *)
Inductive method : Type := Open | OpenSet.

(** What the persistence does to its collaborators while it opens or
    closes: a connect call, a disconnect call, an error sent to the logger. *)
Inductive event : Type :=
| Connect (openMethod : method) (uri : string) (settings : server)
| Disconnect
| LogError (err : error) (message : string).

(** How the driver reacts to the connect call: it throws, or it calls back
    with [err]; [databaseName] is [this._connection.db.databaseName] at that
    moment. *)
Inductive connecting : Type :=
| ConnectThrows (ex : error)
| ConnectAnswers (err : option error) (databaseName : option string).

Section WithSchema.

(** The Mongoose schema is opaque to this code: it is stored and handed
    back to the driver. *)
Context {Schema : Type}.

(** The fields of [this]. *)
Record instance : Type := {
  _collection : option string;
  _schema : option Schema;
  _model : option Model;
  _database : option string;
  _options : PersistenceOptions.t
}.

(** The part of [this] that [clear] reads. *)
Definition cleared (this : instance) : MongoDbPersistence.t :=
  {| MongoDbPersistence._collection := _collection this;
     MongoDbPersistence._model := _model this |}.

(** [this._connection.model(collection, schema)]. *)
Variable model : option string -> Schema -> Model.

(** The constructor of [MongoDbPersistence]. *)
Definition construct (collection : option string) (schema : option Schema)
  : instance :=
  {| _collection := collection;
     _schema := schema;
     _model :=
       match collection, schema with
       | Some _, Some schema => Some (model collection schema)
       | _, _ => None
       end;
     _database := None;
     _options := PersistenceOptions.empty |}.

(** The constructor of [IdentifiableMongoDbPersistence]: the base
    constructor, then the two checks that throw. *)
Definition constructIdentifiable (collection : option string)
  (schema : option Schema) : instance + error :=
  let this := construct collection schema in
  match collection with
  | None => inr (PlainError "Collection name could not be null")
  | Some _ =>
      match schema with
      | None => inr (PlainError "Schema could not be null")
      | Some _ => inl this
      end
  end.

(** Modelled from the spec: [config.getAsStringWithDefault(key, default)]
    of the configuration object (section 1, "typed getters with defaults"),
    not part of src/: the setting when there is one, the default otherwise. *)
Definition getAsStringWithDefault (setting defaultValue : option string)
  : option string :=
  match setting with
  | Some value => Some value
  | None => defaultValue
  end.

(** [collection != this._collection] on nullable strings. *)
Definition differs (a b : option string) : bool :=
  match a, b with
  | Some a, Some b => negb (a =? b)
  | None, None => false
  | _, _ => true
  end.

(** [configure]: [setting] is the "collection" entry of the configuration
    and [options] is what [this._options.override(config.getSection("options"))]
    answers to the accessors.  The call
    [this._connectionResolver.configure(config)] changes the connection
    resolver, an object of its own that is not among the fields of [this]
    kept here. *)
Definition configure (this : instance) (setting : option string)
  (options : PersistenceOptions.t) : instance :=
  let collection := getAsStringWithDefault setting (_collection this) in
  match _schema this with
  | Some schema =>
      if differs collection (_collection this) then
        {| _collection := collection;
           _schema := _schema this;
           _model := Some (model collection schema);
           _database := _database this;
           _options := options |}
      else
        {| _collection := _collection this;
           _schema := _schema this;
           _model := _model this;
           _database := _database this;
           _options := options |}
  | None =>
      {| _collection := _collection this;
         _schema := _schema this;
         _model := _model this;
         _database := _database this;
         _options := options |}
  end.

(** [open]: [resolved] is what the connection resolver does with the
    callback it is given, [connect] is the driver's reaction to the connect
    call. *)
Definition open (this : instance) (correlationId : option string)
  (resolved : MongoDbConnectionResolver.resolution)
  (connect : method -> string -> server -> connecting) (callback : bool)
  : instance * list event * outcome unit :=
  match resolved with
  | MongoDbConnectionResolver.Raised => (this, [], Threw)
  | MongoDbConnectionResolver.Failed err =>
      if callback then (this, [], Called (Some err) tt)
      else (this, [LogError err "Failed to resolve MongoDb connection"], Silent)
  | MongoDbConnectionResolver.Resolved uri =>
      let settings := composeSettings (_options this) in
      let replicaSet := PersistenceOptions.replica_set (_options this) in
      let replicaSet := replicaSet || (0 <? indexOf "replicaSet" uri)%Z in
      let openMethod := if replicaSet then OpenSet else Open in
      let failed cause :=
        ConnectionException correlationId "CONNECT_FAILED"
          "Connection to mongodb failed" cause in
      match connect openMethod uri settings with
      | ConnectThrows ex =>
          (this, [Connect openMethod uri settings],
           if callback then Called (Some (failed ex)) tt else Threw)
      | ConnectAnswers (Some err) _ =>
          (this, [Connect openMethod uri settings],
           if callback then Called (Some (failed err)) tt else Silent)
      | ConnectAnswers None databaseName =>
          ({| _collection := _collection this;
              _schema := _schema this;
              _model := _model this;
              _database := or_else (_database this) databaseName;
              _options := _options this |},
           [Connect openMethod uri settings],
           if callback then Called None tt else Silent)
      end
  end.

(** [close]: [closing] is the error the driver's disconnect calls back
    with. *)
Definition close (this : instance) (correlationId : option string)
  (closing : option error) (callback : bool) : list event * outcome unit :=
  let err :=
    match closing with
    | Some err =>
        Some (ConnectionException correlationId "DISCONNECT_FAILED"
                "Disconnect from mongodb failed: " err)
    | None => None
    end in
  ([Disconnect], if callback then Called err tt else Silent).

End WithSchema.

End Lifecycle.

(** ** More operations of IdentifiableMongoDbPersistence *)

Module IdentifiableQueries.

Import MongoDbPersistence IdentifiableMongoDbPersistence.

(** The statement [getListByFilter] configures: no skip and no limit. *)
Definition listStatement (filter : Json.object) (sort select : option Json.object)
  : statement :=
  let statement := Driver.find filter in
  let statement :=
    match sort with
    | Some s => if given sort then Driver.sort s statement else statement
    | None => statement
    end in
  match select with
  | Some s => if given select then Driver.select s statement else statement
  | None => statement
  end.

Definition getListByFilter (this : IdentifiableMongoDbPersistence.t)
  (correlationId : option string) (filter : Json.object)
  (sort select : option Json.object)
  : list call * outcome (option (list (option Json.object))) :=
  let statement := listStatement filter sort select in
  match exec (_model this) statement with
  | (Some err, _) => ([Exec statement], Called (Some err) None)
  | (None, items) =>
      let items :=
        map convertToPublic
          match items with
          | Some items => items
          | None => []
          end in
      ([Exec statement], Called None (Some items))
  end.

(** [(items != null && items.length > 0) ? items[0] : null]. *)
Definition firstItem (items : option (list stored)) : stored :=
  match items with
  | Some (item :: _) => item
  | _ => Missing
  end.

(** [getOneRandom]: [random] is lodash's [_.random(lower, upper)]. *)
Definition getOneRandom (this : IdentifiableMongoDbPersistence.t)
  (random : Z -> Z -> Z) (correlationId : option string) (filter : Json.object)
  : list call * outcome (option Json.object) :=
  match Driver.count (_model this) filter with
  | (Some err, _) => ([Count filter], Called (Some err) None)
  | (None, count) =>
      let pos := random 0%Z (count - 1)%Z in
      let statement :=
        Driver.limit 1
          (Driver.skip (if (0 <=? pos)%Z then pos else 0%Z) (Driver.find filter)) in
      let '(err, items) := exec (_model this) statement in
      ([Count filter; Exec statement],
       Called err (convertToPublic (firstItem items)))
  end.

Definition deleteByFilter (this : IdentifiableMongoDbPersistence.t)
  (correlationId : option string) (filter : Json.object) (callback : bool)
  : list call * outcome unit :=
  let '(err, count) := remove (_model this) filter in
  ([Remove filter], if callback then Called err tt else Silent).

End IdentifiableQueries.

(** ** Vocabulary of the further properties *)

Module Vocabulary.

(** The five settings that [composeUri] removes from the merged options. *)
Definition reserved (key : string) : bool :=
  existsb (String.eqb key) ["host"; "port"; "database"; "username"; "password"].

(** What a sort or select argument contributes to a query: the argument
    itself when it is given and has at least one field, no clause
    otherwise. *)
Definition clause (o : option Json.object) : option Json.object :=
  match o with
  | Some (_ :: _) => o
  | _ => None
  end.

(** The model handle exists exactly when a collection name and a schema are
    both present. *)
Definition bound {Schema : Type} (this : @Lifecycle.instance Schema) : Prop :=
  Lifecycle._model this <> None
  <-> (Lifecycle._collection this <> None /\ Lifecycle._schema this <> None).

(** Configuring an instance several times in a row; each step brings the
    "collection" setting and the resulting options. *)
Definition configureAll {Schema : Type}
  (model : option string -> Schema -> Model)
  (this : @Lifecycle.instance Schema)
  (steps : list (option string * PersistenceOptions.t))
  : @Lifecycle.instance Schema :=
  fold_left (fun this step => Lifecycle.configure model this (fst step) (snd step))
    steps this.

End Vocabulary.

(** ** The merged settings in the words of the specification

    Section 4.1, step 5: "merge all connection descriptors' fields with the
    credential's fields (credential wins on key collision), strip host,
    port, database, username, password"; "key order follows merged-map
    iteration order (insertion order of first occurrence)". *)

Module MergedSettings.

Import MongoDbConnectionResolver.

(** Every field that takes part in the merge, in merging order: descriptor
    after descriptor, the credential's fields last. *)
Definition fields (connections : list ConnectionParams)
  (credential : option CredentialParams) : ConfigParams.t :=
  (concat (map connEntries connections)
   ++ match credential with
      | Some credential => credEntries credential
      | None => []
      end)%list.

(** The keys in the order of their first occurrence. *)
Fixpoint firstOccurrences (keys : list string) : list string :=
  match keys with
  | [] => []
  | key :: rest =>
      key :: List.filter (fun k => negb (k =? key)) (firstOccurrences rest)
  end.

(** The value of the last field written under a key, [null] when no field
    has that key. *)
Fixpoint lastValue (key : string) (fields : ConfigParams.t) : option string :=
  match fields with
  | [] => None
  | (k, v) :: rest =>
      if existsb (fun kv => fst kv =? key) rest then lastValue key rest
      else if k =? key then v
      else None
  end.

(** The settings that remain for the query part of the uri. *)
Definition settingsOf (connections : list ConnectionParams)
  (credential : option CredentialParams) : ConfigParams.t :=
  let all := fields connections credential in
  map (fun key => (key, lastValue key all))
    (List.filter (fun key => negb (Vocabulary.reserved key))
       (firstOccurrences (map fst all))).

End MergedSettings.

(** ** Descriptors as the library reads them from their settings *)

Module LibraryDescriptor.

Import MongoDbConnectionResolver.

(** Modelled from the spec: the nullable string getter of the configuration
    object (section 1, "typed getters with defaults"; section 3, "optional
    pre-built URI"), library code that is not part of src/: an optional
    setting is present when it holds a non-empty string, so a missing
    setting and an empty string both read as [null]. *)
Definition getAsNullableString (key : string) (settings : ConfigParams.t)
  : option string :=
  match ConfigParams.getAsString key settings with
  | Some "" => None
  | value => value
  end.

(** Modelled from the spec: the accessors of a connection descriptor
    (section 3, "ConnectionDescriptor: protocol, host, port, database name,
    optional pre-built URI"), library code that is not part of src/: the uri,
    the host (or its "ip" alias) and the database are read with the nullable
    string getter; [port] is the number the library reads from the port
    setting, 0 when there is none. *)
Definition read (settings : ConfigParams.t) (port : Z) : ConnectionParams :=
  {| getUri := getAsNullableString "uri" settings;
     getHost := or_else (getAsNullableString "host" settings)
                  (getAsNullableString "ip" settings);
     getPort := Some port;
     getDatabase := getAsNullableString "database" settings;
     connEntries := settings |}.

End LibraryDescriptor.

(** * Properties *)

(** ** Strings *)

Section StringFacts.

Lemma append_assoc (a b c : string) : (a ++ b) ++ c = a ++ (b ++ c).
Proof.
  induction a as [| ch a IH]; simpl; [reflexivity | now rewrite IH].
Qed.

Lemma nonempty_false (s : string) : nonempty s = false -> s = "".
Proof.
  destruct s; [reflexivity | discriminate].
Qed.

Lemma nonempty_true (s : string) : s <> "" -> nonempty s = true.
Proof.
  destruct s; [congruence | reflexivity].
Qed.

Lemma nonempty_append_l (a b : string) :
  nonempty a = true -> nonempty (a ++ b) = true.
Proof.
  destruct a; [discriminate | reflexivity].
Qed.

Lemma truthy_some (s : string) : s <> "" -> truthy (Some s) = true.
Proof.
  intros H. unfold truthy. apply String.eqb_neq in H. now rewrite H.
Qed.

Lemma truthy_inv (o : option string) :
  truthy o = true -> exists s, o = Some s /\ s <> "".
Proof.
  destruct o as [s |]; simpl; [| discriminate].
  intros H. exists s. split; [reflexivity |].
  apply String.eqb_neq. now destruct (s =? "").
Qed.

Lemma append_empty_r (a : string) : a ++ "" = a.
Proof.
  induction a as [| ch a IH]; simpl; [reflexivity | now rewrite IH].
Qed.

Lemma append_nonempty_l (a b : string) : a <> "" -> a ++ b <> "".
Proof.
  destruct a; [congruence | discriminate].
Qed.

(** The accumulator loop shared by the host list and the parameters: a
    separator goes in front of an item only when something was collected
    before it. *)
Lemma join_loop (A : Type) (sep : string) (f : A -> string) (l : list A) :
  forall acc : string,
    nonempty acc = true ->
    fold_left (fun acc x => (if nonempty acc then acc ++ sep else acc) ++ f x) l acc
    = match l with
      | [] => acc
      | _ :: _ => acc ++ sep ++ String.concat sep (map f l)
      end.
Proof.
  induction l as [| x l IH]; intros acc Hne; [reflexivity |].
  cbn [fold_left]. rewrite Hne. rewrite IH.
  - destruct l as [| y l]; cbn [map String.concat].
    + apply append_assoc.
    + now rewrite !append_assoc.
  - now apply nonempty_append_l, nonempty_append_l.
Qed.

Lemma join_from_empty (A : Type) (sep : string) (f : A -> string) (l : list A) :
  Forall (fun x => f x <> "") l ->
  fold_left (fun acc x => (if nonempty acc then acc ++ sep else acc) ++ f x) l ""
  = String.concat sep (map f l).
Proof.
  intros H. destruct H as [| x l Hx Hl]; [reflexivity |].
  cbn [fold_left]. cbn [nonempty String.length Nat.ltb Nat.leb].
  change ("" ++ f x) with (f x).
  rewrite join_loop by now apply nonempty_true.
  now destruct l.
Qed.

Lemma fold_left_pointwise (A B : Type) (f g : A -> B -> A) (l : list B) :
  (forall a b, f a b = g a b) ->
  forall a, fold_left f l a = fold_left g l a.
Proof.
  intros H. induction l as [| b l IH]; intros a; [reflexivity |].
  cbn [fold_left]. now rewrite H, IH.
Qed.

End StringFacts.

(** ** The merged options *)

Section ConfigFacts.

Import ConfigParams.

Lemma put_keys (key : string) (value : option string) (m : ConfigParams.t) :
  map fst (put key value m)
  = if in_dec string_dec key (map fst m) then map fst m
    else (map fst m ++ [key])%list.
Proof.
  induction m as [| [k v] m IH]; [reflexivity |].
  cbn [put map fst]. destruct (String.eqb_spec k key) as [-> | Hne].
  - clear IH. cbn [map fst].
    destruct (in_dec string_dec key (key :: map fst m)) as [_ | Hn];
      [reflexivity |].
    exfalso. apply Hn. now left.
  - cbn [map fst]. rewrite IH.
    destruct (in_dec string_dec key (map fst m)) as [Hin | Hn];
      destruct (in_dec string_dec key (k :: map fst m)) as [Hin' | Hn'];
      try reflexivity.
    + exfalso. apply Hn'. now right.
    + exfalso. destruct Hin' as [? | ?]; [congruence | contradiction].
Qed.

Lemma put_unique (key : string) (value : option string) (m : ConfigParams.t) :
  NoDup (map fst m) -> NoDup (map fst (put key value m)).
Proof.
  intros H. rewrite put_keys. destruct (in_dec _ _ _) as [Hin | Hn]; [exact H |].
  apply NoDup_app; [exact H | repeat constructor; intros [] | ].
  intros x Hx [<- | []]. contradiction.
Qed.

Lemma putAll_unique (src : ConfigParams.t) :
  forall dst, NoDup (map fst dst) -> NoDup (map fst (putAll dst src)).
Proof.
  unfold putAll. induction src as [| kv src IH]; intros dst H; [exact H |].
  cbn [fold_left]. now apply IH, put_unique.
Qed.

Lemma mergeConfigs_unique (configs : list ConfigParams.t) :
  NoDup (map fst (mergeConfigs configs)).
Proof.
  unfold mergeConfigs.
  assert (H : NoDup (map fst (@nil (string * option string)))) by constructor.
  revert H. generalize (@nil (string * option string)).
  induction configs as [| c configs IH]; intros acc H; [exact H |].
  cbn [fold_left]. now apply IH, putAll_unique.
Qed.

Lemma override_unique (m : ConfigParams.t) (config : option ConfigParams.t) :
  NoDup (map fst (override m config)).
Proof.
  unfold override. destruct config; repeat apply putAll_unique; constructor.
Qed.

Lemma remove_keys (key : string) (m : ConfigParams.t) :
  map fst (remove key m) = List.filter (fun k => negb (k =? key)) (map fst m).
Proof.
  induction m as [| [k v] m IH]; [reflexivity |].
  unfold remove in *. cbn [List.filter map fst].
  destruct (k =? key); cbn [negb map fst]; now rewrite IH.
Qed.

Lemma remove_unique (key : string) (m : ConfigParams.t) :
  NoDup (map fst m) -> NoDup (map fst (remove key m)).
Proof.
  intros H. rewrite remove_keys. now apply NoDup_filter.
Qed.

Lemma getAsString_member (m : ConfigParams.t) (kv : string * option string) :
  NoDup (map fst m) -> In kv m -> getAsString (fst kv) m = snd kv.
Proof.
  induction m as [| [k v] m IH]; intros Hnd Hin; [contradiction |].
  cbn [map fst] in Hnd. inversion Hnd as [| ? ? Hk Hm]; subst.
  cbn [getAsString]. destruct Hin as [<- | Hin].
  - cbn [fst snd]. now rewrite String.eqb_refl.
  - destruct (String.eqb_spec k (fst kv)) as [-> | Hne]; [| now apply IH].
    exfalso. apply Hk. now apply in_map.
Qed.

End ConfigFacts.

(** ** Connection validation and uri composition *)

Section ResolverFacts.

Import MongoDbConnectionResolver UriSpec.

Variable cid : option string.

Lemma validateEach_first (pre post : list ConnectionParams)
  (connection : ConnectionParams) (err : error) :
  Forall (fun c => validateConnection cid c = None) pre ->
  validateConnection cid connection = Some err ->
  validateEach cid (pre ++ connection :: post) = Some err.
Proof.
  intros Hpre Herr. induction Hpre as [| c pre Hc _ IH]; simpl.
  - now rewrite Herr.
  - now rewrite Hc.
Qed.

Lemma validateEach_all (connections : list ConnectionParams) :
  Forall (fun c => validateConnection cid c = None) connections
  <-> validateEach cid connections = None.
Proof.
  induction connections as [| c l IH]; simpl.
  - split; [reflexivity | constructor].
  - destruct (validateConnection cid c) eqn:Hc.
    + split; [| discriminate]. intros H. inversion H; subst. congruence.
    + rewrite <- IH. split.
      * intros H. now inversion H.
      * intros H. now constructor.
Qed.

Lemma validateConnections_cons (c : ConnectionParams) (l : list ConnectionParams) :
  validateConnections cid (Some (c :: l)) = validateEach cid (c :: l).
Proof. reflexivity. Qed.

Lemma valid_without_uri (c : ConnectionParams) :
  validateConnection cid c = None -> getUri c = None ->
  (exists h, getHost c = Some h) /\ getPort c <> Some 0%Z /\
  (exists d, getDatabase c = Some d).
Proof.
  unfold validateConnection. intros Hv Hu. rewrite Hu in Hv.
  destruct (getHost c) as [h |]; [| discriminate].
  destruct (getPort c) as [[| p | p] |]; try discriminate;
    (destruct (getDatabase c) as [d |]; [| discriminate]);
    (split; [now exists h | split; [congruence | now exists d]]).
Qed.

Lemma firstUri_skips (pre : list ConnectionParams) (rest : list ConnectionParams) :
  Forall (fun c => truthy (getUri c) = false) pre ->
  firstUri (pre ++ rest) = firstUri rest.
Proof.
  intros H. induction H as [| c pre Hc _ IH]; simpl; [reflexivity |].
  now rewrite Hc.
Qed.

Lemma firstUri_none (connections : list ConnectionParams) :
  Forall (fun c => truthy (getUri c) = false) connections ->
  firstUri connections = None.
Proof.
  intros H. rewrite <- (app_nil_r connections). now rewrite firstUri_skips.
Qed.

Lemma composeHosts_join (connections : list ConnectionParams) :
  Forall (fun c => hostPort c <> "") connections ->
  composeHosts connections = hostList connections.
Proof.
  intros H. unfold composeHosts, hostList. now apply join_from_empty.
Qed.

Lemma database_loop (connections : list ConnectionParams) :
  forall database : string,
    Forall (fun c => exists d, getDatabase c = Some d) connections ->
    fold_left (fun database connection => or_else database (getDatabase connection))
      connections (Some database)
    = Some (if nonempty database then database
            else match firstDatabase connections with
                 | Some d => d
                 | None => ""
                 end).
Proof.
  induction connections as [| c l IH]; intros database H.
  - simpl. destruct database; reflexivity.
  - inversion H as [| ? ? [d Hd] Hl]; subst. cbn [fold_left firstDatabase].
    rewrite Hd. unfold or_else at 2. destruct database as [| ch s].
    + cbn [truthy String.eqb negb nonempty String.length Nat.ltb Nat.leb].
      rewrite IH by assumption. destruct d; reflexivity.
    + cbn [truthy String.eqb negb]. rewrite IH by assumption. reflexivity.
Qed.

Lemma pickDatabase_first (connections : list ConnectionParams) :
  Forall (fun c => exists d, getDatabase c = Some d) connections ->
  pickDatabase connections
  = Some match firstDatabase connections with
         | Some d => d
         | None => ""
         end.
Proof.
  intros H. unfold pickDatabase. now rewrite database_loop.
Qed.

Lemma firstDatabase_nonempty (connections : list ConnectionParams) (d : string) :
  firstDatabase connections = Some d -> d <> "".
Proof.
  induction connections as [| c l IH]; simpl; [discriminate |].
  destruct (getDatabase c) as [[| ch s] |]; auto.
  intros H; inversion H; discriminate.
Qed.

Lemma composeAuth_prefix (credential : option CredentialParams) :
  composeAuth credential = authPrefix credential.
Proof.
  destruct credential as [[[[| ch u] |] [[| ch' p] |] e] |]; reflexivity.
Qed.

Lemma composeOptions_unique (connections : list ConnectionParams)
  (credential : option CredentialParams) :
  NoDup (map fst (composeOptions connections credential)).
Proof.
  unfold composeOptions. repeat apply remove_unique. apply override_unique.
Qed.

Lemma composeParams_settings (options : ConfigParams.t) :
  NoDup (map fst options) ->
  Forall (fun kv => fst kv <> "") options ->
  composeParams options = paramsPart options.
Proof.
  intros Hnd Hkeys. unfold composeParams, ConfigParams.getKeys.
  rewrite (fold_left_pointwise _ _ _
             (fun acc key =>
                (if nonempty acc then acc ++ "&" else acc)
                ++ (key ++ match ConfigParams.getAsString key options with
                           | Some value => "=" ++ value
                           | None => ""
                           end))).
  - rewrite join_from_empty.
    + rewrite map_map.
      rewrite (map_ext_in _ setting).
      * destruct options as [| kv l]; [reflexivity |].
        rewrite nonempty_true; [reflexivity |].
        inversion Hkeys; subst. cbn [map].
        destruct l; cbn [String.concat]; unfold setting at 1;
          now repeat apply append_nonempty_l.
      * intros kv Hin. unfold setting.
        now rewrite (getAsString_member options kv Hnd Hin).
    + rewrite Forall_forall in *. intros key Hin.
      apply in_map_iff in Hin. destruct Hin as (kv & <- & Hin).
      now apply append_nonempty_l, Hkeys.
  - intros acc key.
    destruct (ConfigParams.getAsString key options);
      now rewrite ?append_assoc, ?append_empty_r.
Qed.

Lemma composeParams_prefixed (options : ConfigParams.t) :
  composeParams options = "" \/ exists q, composeParams options = "?" ++ q.
Proof.
  unfold composeParams.
  match goal with |- context [nonempty ?p] => destruct (nonempty p) eqn:Hp end.
  - right. eexists. reflexivity.
  - left. now apply nonempty_false.
Qed.

End ResolverFacts.

Section ResolverClaims.

Import MongoDbConnectionResolver UriSpec Samples.

(** C2: validation fails with NO_CONNECTION for a null or empty list;
    a descriptor with a non-null uri is valid whatever its other fields;
    without a uri it fails with NO_HOST when the host is null, else with
    NO_PORT when the port is 0, else with NO_DATABASE when the database is
    null; the error of the first invalid descriptor is the result of the
    validation, and it is the error resolve reports. *)
Theorem validation_reports_first_error :
  forall cid : option string,
    validateConnections cid None
    = Some (ConfigException cid "NO_CONNECTION" "Database connection is not set") /\
    validateConnections cid (Some [])
    = Some (ConfigException cid "NO_CONNECTION" "Database connection is not set") /\
    (forall c, getUri c <> None -> validateConnection cid c = None) /\
    (forall c, getUri c = None -> getHost c = None ->
       validateConnection cid c
       = Some (ConfigException cid "NO_HOST" "Connection host is not set")) /\
    (forall c, getUri c = None -> getHost c <> None -> getPort c = Some 0%Z ->
       validateConnection cid c
       = Some (ConfigException cid "NO_PORT" "Connection port is not set")) /\
    (forall c, getUri c = None -> getHost c <> None -> getPort c <> Some 0%Z ->
       getDatabase c = None ->
       validateConnection cid c
       = Some (ConfigException cid "NO_DATABASE" "Connection database is not set")) /\
    (forall c, getUri c = None -> getHost c <> None -> getPort c <> Some 0%Z ->
       getDatabase c <> None -> validateConnection cid c = None) /\
    (forall pre c post err,
       Forall (fun c => validateConnection cid c = None) pre ->
       validateConnection cid c = Some err ->
       validateConnections cid (Some (pre ++ c :: post)%list) = Some err) /\
    (forall c l,
       Forall (fun c => validateConnection cid c = None) (c :: l) ->
       validateConnections cid (Some (c :: l)) = None) /\
    (forall connections err lookup order,
       validateConnections cid connections = Some err ->
       fst lookup = None \/ order = ConnectionsFirst ->
       resolve cid (None, connections) lookup order = Failed err).
Proof.
  intros cid. repeat split.
  - intros c Hu. unfold validateConnection. now destruct (getUri c).
  - intros c Hu Hh. unfold validateConnection. now rewrite Hu, Hh.
  - intros c Hu Hh Hp. unfold validateConnection. rewrite Hu, Hp.
    now destruct (getHost c).
  - intros c Hu Hh Hp Hd. unfold validateConnection. rewrite Hu, Hd.
    destruct (getHost c); [| congruence].
    destruct (getPort c) as [[| p | p] |]; congruence.
  - intros c Hu Hh Hp Hd. unfold validateConnection. rewrite Hu.
    destruct (getHost c); [| congruence].
    destruct (getDatabase c); [| congruence].
    destruct (getPort c) as [[| p | p] |]; congruence.
  - intros pre c post err Hpre Herr.
    assert (H := validateEach_first cid pre post c err Hpre Herr).
    destruct pre; exact H.
  - intros c l H. rewrite validateConnections_cons. now apply validateEach_all.
  - intros connections err [lerr cred] order Hv Hor. unfold resolve.
    cbn [fst snd] in *. rewrite Hv.
    destruct Hor as [-> | ->]; [destruct order |]; reflexivity.
Qed.

Lemma validation_reports_first_error_witness :
  resolve None
    (None, Some [node "a" 27017 "test"; {| getUri := None; getHost := Some "b";
                                          getPort := Some 0%Z; getDatabase := None;
                                          connEntries := [] |};
                 {| getUri := None; getHost := None; getPort := None;
                    getDatabase := None; connEntries := [] |}])
    (None, None) CredentialFirst
  = Failed (ConfigException None "NO_PORT" "Connection port is not set").
Proof.
  destruct (validation_reports_first_error None)
    as (_ & _ & _ & _ & Hport & _ & _ & Hfirst & _ & Hresolve).
  apply Hresolve; [| left; reflexivity].
  apply (Hfirst [node "a" 27017 "test"]).
  - repeat constructor.
  - apply Hport; [reflexivity | discriminate | reflexivity].
Defined.

(** C3: when some descriptor carries a literal (non-empty) uri, composeUri
    returns the uri of the first such descriptor unmodified, whatever the
    other descriptors and the credential are. *)
Theorem composeUri_returns_first_uri :
  forall (pre post : list ConnectionParams) (c : ConnectionParams)
         (credential : option CredentialParams) (uri : string),
    Forall (fun c => truthy (getUri c) = false) pre ->
    getUri c = Some uri ->
    uri <> "" ->
    composeUri (pre ++ c :: post)%list credential = Returned uri.
Proof.
  intros pre post c credential uri Hpre Huri Hne. unfold composeUri.
  rewrite firstUri_skips by assumption. cbn [firstUri].
  now rewrite Huri, truthy_some.
Qed.

Lemma composeUri_returns_first_uri_witness :
  composeUri
    [node "a" 27017 "test"; literal "mongodb://h1,h2/db?replicaSet=rs";
     literal "mongodb://other/db"]
    (Some (login "u" "p"))
  = Returned "mongodb://h1,h2/db?replicaSet=rs".
Proof.
  apply (composeUri_returns_first_uri [node "a" 27017 "test"]
           [literal "mongodb://other/db"]
           (literal "mongodb://h1,h2/db?replicaSet=rs")).
  - repeat constructor.
  - reflexivity.
  - discriminate.
Defined.

End ResolverClaims.

(** ** Objects *)

Section JsonFacts.

Lemma has_omit (key : string) (o : Json.object) :
  Json.has key (Json.omit key o) = false.
Proof.
  induction o as [| [k v] o IH]; [reflexivity |].
  unfold Json.omit in *. cbn [filter fst].
  destruct (k =? key) eqn:Hk; cbn [negb]; [exact IH |].
  cbn [Json.has existsb fst]. rewrite Hk. exact IH.
Qed.

Lemma has_set_other (key other : string) (v : Json.value) (o : Json.object) :
  other <> key -> Json.has key (Json.set other v o) = Json.has key o.
Proof.
  intros Hne. apply String.eqb_neq in Hne.
  induction o as [| [k w] o IH]; cbn [Json.set Json.has existsb fst].
  - now rewrite Hne.
  - destruct (k =? other) eqn:Hk; cbn [Json.has existsb fst].
    + reflexivity.
    + unfold Json.has in IH. now rewrite IH.
Qed.

Lemma get_set (key : string) (v : Json.value) (o : Json.object) :
  Json.get key (Json.set key v o) = v.
Proof.
  induction o as [| [k w] o IH]; cbn [Json.set Json.get].
  - now rewrite String.eqb_refl.
  - destruct (k =? key) eqn:Hk; cbn [Json.get]; now rewrite Hk.
Qed.

Lemma matches_empty_filter (d : stored) : DocumentStore.matches [] d = true.
Proof. reflexivity. Qed.


End JsonFacts.

(** ** Paging *)

Section PagingClaims.

Import MongoDbPersistence IdentifiableMongoDbPersistence.

Lemma pageStatement_filter this filter paging sort select :
  stFilter (pageStatement this filter paging sort select) = filter.
Proof.
  unfold pageStatement.
  destruct sort as [s |], select as [s' |];
    repeat match goal with |- context [if ?b then _ else _] => destruct b end;
    reflexivity.
Qed.

Lemma pageStatement_skip this filter paging sort select :
  stSkip (pageStatement this filter paging sort select)
  = let resolved :=
      PagingParams.getSkip
        match paging with Some p => p | None => PagingParams.empty end (-1) in
    if (0 <=? resolved)%Z then Some resolved else None.
Proof.
  unfold pageStatement.
  destruct sort as [s |], select as [s' |];
    repeat match goal with |- context [if ?b then _ else _] => destruct b end;
    reflexivity.
Qed.

Lemma pageStatement_limit this filter paging sort select :
  stLimit (pageStatement this filter paging sort select)
  = Some (PagingParams.getTake
            match paging with Some p => p | None => PagingParams.empty end
            (_maxPageSize this)).
Proof.
  unfold pageStatement.
  destruct sort as [s |], select as [s' |];
    repeat match goal with |- context [if ?b then _ else _] => destruct b end;
    reflexivity.
Qed.

Lemma getPageByFilter_first_call this cid filter paging sort select :
  exists rest,
    fst (getPageByFilter this cid filter paging sort select)
    = Exec (pageStatement this filter paging sort select) :: rest.
Proof.
  unfold getPageByFilter.
  destruct (exec _ _) as [[err |] items]; [eexists; reflexivity |].
  destruct (PagingParams.wantsTotal _); [| eexists; reflexivity].
  destruct (Driver.count _ _) as [[err |] n]; eexists; reflexivity.
Qed.

Lemma page_of_five (docs : list stored) (filter : Json.object) (skip : Z) :
  List.length (List.filter (DocumentStore.matches filter) docs) = 5 ->
  (0 <= skip)%Z ->
  List.length (DocumentStore.find docs filter (Some skip) (Some 2%Z))
  = Nat.min 2 (5 - Z.to_nat skip).
Proof.
  intros H5 Hs. unfold DocumentStore.find, DocumentStore.applyLimit.
  cbn [Z.eqb]. rewrite length_firstn, length_skipn, H5. reflexivity.
Qed.

(** C4: the statement getPageByFilter runs carries a skip clause exactly
    when the resolved skip is at least 0, the resolved skip being -1 when
    the paging parameters or their skip are absent; it always carries a
    limit clause, whose value is the caller's take when one is supplied and
    the configured maximum page size otherwise.  Against a store that
    holds 5 matching documents, skip 0 and take 2 give a page of 2 items,
    and skip 4 and take 2 give a page of 1 item. *)
Theorem page_skip_and_limit :
  (forall (this : IdentifiableMongoDbPersistence.t) (cid : option string)
          (filter : Json.object) (paging : option PagingParams.t)
          (sort select : option Json.object),
      let statement := pageStatement this filter paging sort select in
      let resolved :=
        PagingParams.getSkip
          match paging with Some p => p | None => PagingParams.empty end (-1) in
      (exists rest,
          fst (getPageByFilter this cid filter paging sort select)
          = Exec statement :: rest) /\
      ((exists n, stSkip statement = Some n) <-> (0 <= resolved)%Z) /\
      ((0 <= resolved)%Z -> stSkip statement = Some resolved) /\
      (paging = None -> resolved = (-1)%Z) /\
      (forall p, paging = Some p -> PagingParams.skip p = None ->
                 resolved = (-1)%Z) /\
      (forall p n, paging = Some p -> PagingParams.skip p = Some n ->
                   resolved = n) /\
      (forall p n, paging = Some p -> PagingParams.take p = Some n ->
                   stLimit statement = Some n) /\
      (forall p, paging = Some p -> PagingParams.take p = None ->
                 stLimit statement = Some (_maxPageSize this)) /\
      (paging = None -> stLimit statement = Some (_maxPageSize this))) /\
  (forall (this : IdentifiableMongoDbPersistence.t) (cid : option string)
          (docs : list stored) (filter : Json.object) (total : option bool),
      List.length (List.filter (DocumentStore.matches filter) docs) = 5 ->
      (forall st,
          exec (_model this) st
          = (None, Some (DocumentStore.find docs (stFilter st) (stSkip st)
                           (stLimit st)))) ->
      (forall f, Driver.count (_model this) f = (None, DocumentStore.count docs f)) ->
      (exists page,
          snd (getPageByFilter this cid filter
                 (Some {| PagingParams.skip := Some 0%Z;
                          PagingParams.take := Some 2%Z;
                          PagingParams.total := total |}) None None)
          = Called None (Some page) /\
          List.length (DataPage.data page) = 2) /\
      (exists page,
          snd (getPageByFilter this cid filter
                 (Some {| PagingParams.skip := Some 4%Z;
                          PagingParams.take := Some 2%Z;
                          PagingParams.total := total |}) None None)
          = Called None (Some page) /\
          List.length (DataPage.data page) = 1)).
Proof.
  split.
  - intros this cid filter paging sort select statement resolved.
    assert (Hskip := pageStatement_skip this filter paging sort select).
    assert (Hlimit := pageStatement_limit this filter paging sort select).
    fold statement in Hskip, Hlimit. cbv zeta in Hskip. fold resolved in Hskip.
    split; [apply getPageByFilter_first_call |].
    split.
    { rewrite Hskip. destruct (Z.leb_spec 0 resolved) as [Hle | Hlt].
      - split; [intros _; exact Hle | intros _; eexists; reflexivity].
      - split; [intros [n Hn]; discriminate | lia]. }
    split.
    { intros Hle. rewrite Hskip. apply Z.leb_le in Hle. now rewrite Hle. }
    split; [intros ->; reflexivity |].
    split; [intros p -> Hp; subst resolved; unfold PagingParams.getSkip;
            now rewrite Hp |].
    split; [intros p n -> Hp; subst resolved; unfold PagingParams.getSkip;
            now rewrite Hp |].
    split; [intros p n -> Hp; rewrite Hlimit; unfold PagingParams.getTake;
            now rewrite Hp |].
    split; [intros p -> Hp; rewrite Hlimit; unfold PagingParams.getTake;
            now rewrite Hp |].
    intros ->. rewrite Hlimit. reflexivity.
  - intros this cid docs filter total H5 Hexec Hcount.
    split.
    + unfold getPageByFilter. rewrite Hexec, Hcount.
      cbn [pageStatement PagingParams.getSkip PagingParams.getTake
           PagingParams.skip PagingParams.take Z.leb Z.compare
           Driver.find Driver.skip Driver.limit stFilter stSkip stLimit].
      destruct (PagingParams.wantsTotal _); eexists; (split; [reflexivity |]);
        cbn [DataPage.data]; rewrite length_map, page_of_five by (assumption || lia);
        reflexivity.
    + unfold getPageByFilter. rewrite Hexec, Hcount.
      cbn [pageStatement PagingParams.getSkip PagingParams.getTake
           PagingParams.skip PagingParams.take Z.leb Z.compare
           Driver.find Driver.skip Driver.limit stFilter stSkip stLimit].
      destruct (PagingParams.wantsTotal _); eexists; (split; [reflexivity |]);
        cbn [DataPage.data]; rewrite length_map, page_of_five by (assumption || lia);
        reflexivity.
Qed.

Lemma page_skip_and_limit_witness :
  let this := {| _collection := "dummies";
                 _model := DocumentStore.querying Samples.dummies;
                 _maxPageSize := 100 |} in
  let filter := [("key", Json.VString "a")] in
  let page skip :=
    Some {| PagingParams.skip := Some skip; PagingParams.take := Some 2%Z;
            PagingParams.total := Some true |} in
  (exists found,
      snd (getPageByFilter this None filter (page 0%Z) None None)
      = Called None (Some found) /\ List.length (DataPage.data found) = 2) /\
  (exists found,
      snd (getPageByFilter this None filter (page 4%Z) None None)
      = Called None (Some found) /\ List.length (DataPage.data found) = 1).
Proof.
  cbv zeta.
  apply (proj2 page_skip_and_limit
           {| _collection := "dummies";
              _model := DocumentStore.querying Samples.dummies;
              _maxPageSize := 100 |} None Samples.dummies
           [("key", Json.VString "a")] (Some true)).
  - reflexivity.
  - intros st. reflexivity.
  - intros f. reflexivity.
Defined.

(** C5: when paging.total is set, the count query runs over the same
    filter and only after the page query has succeeded, and the page
    carries that count as its total; a failing count query fails the whole
    operation with its error and no items are returned; a failing page
    query ends the operation before any count; when paging.total is not
    set, no count query is issued and the page carries no total. *)
Theorem page_total_after_items :
  forall (this : IdentifiableMongoDbPersistence.t) (cid : option string)
         (filter : Json.object) (paging : option PagingParams.t)
         (sort select : option Json.object),
    let statement := pageStatement this filter paging sort select in
    let wanted :=
      PagingParams.wantsTotal
        match paging with Some p => p | None => PagingParams.empty end in
    let public items :=
      map convertToPublic match items with Some items => items | None => [] end in
    stFilter statement = filter /\
    (forall err items,
        exec (_model this) statement = (Some err, items) ->
        getPageByFilter this cid filter paging sort select
        = ([Exec statement], Called (Some err) None)) /\
    (forall items n,
        wanted = true ->
        exec (_model this) statement = (None, items) ->
        Driver.count (_model this) filter = (None, n) ->
        getPageByFilter this cid filter paging sort select
        = ([Exec statement; Count filter],
           Called None (Some {| DataPage.data := public items;
                                DataPage.total := Some n |}))) /\
    (forall items err n,
        wanted = true ->
        exec (_model this) statement = (None, items) ->
        Driver.count (_model this) filter = (Some err, n) ->
        getPageByFilter this cid filter paging sort select
        = ([Exec statement; Count filter], Called (Some err) None)) /\
    (forall items,
        wanted = false ->
        exec (_model this) statement = (None, items) ->
        getPageByFilter this cid filter paging sort select
        = ([Exec statement],
           Called None (Some {| DataPage.data := public items;
                                DataPage.total := None |}))).
Proof.
  intros this cid filter paging sort select statement wanted public.
  split; [apply pageStatement_filter |].
  unfold getPageByFilter. fold statement. fold wanted.
  split; [intros err items ->; reflexivity |].
  split; [intros items n -> -> ->; reflexivity |].
  split; [intros items err n -> -> ->; reflexivity |].
  intros items -> ->. reflexivity.
Qed.

Lemma page_total_after_items_witness :
  getPageByFilter
    {| _collection := "dummies";
       _model := DocumentStore.querying Samples.dummies;
       _maxPageSize := 100 |}
    None [("key", Json.VString "a")]
    (Some {| PagingParams.skip := Some 4%Z; PagingParams.take := Some 2%Z;
             PagingParams.total := Some true |}) None None
  = ([Exec {| stFilter := [("key", Json.VString "a")]; stSkip := Some 4%Z;
              stLimit := Some 2%Z; stSort := None; stSelect := None |};
      Count [("key", Json.VString "a")]],
     Called None
       (Some {| DataPage.data := [Some [("id", Json.VString "6");
                                        ("key", Json.VString "a")]];
                DataPage.total := Some 5%Z |})).
Proof.
  refine (proj1 (proj2 (proj2
            (page_total_after_items
               {| _collection := "dummies";
                  _model := DocumentStore.querying Samples.dummies;
                  _maxPageSize := 100 |}
               None [("key", Json.VString "a")]
               (Some {| PagingParams.skip := Some 4%Z;
                        PagingParams.take := Some 2%Z;
                        PagingParams.total := Some true |}) None None)))
            (Some [Samples.dummy "6" "a"]) 5%Z _ _ _); reflexivity.
Defined.

End PagingClaims.

(** ** Keys, null inputs and the public shape *)

Section CrudClaims.

Import MongoDbPersistence IdentifiableMongoDbPersistence.

Lemma create_calls this nextLong cid item callback :
  fst (create this nextLong cid (Some item) callback)
  = (fst (assignId nextLong item) ++ [Create (newDocument nextLong item)])%list.
Proof.
  unfold create.
  destruct (Driver.create _ _) as [[err |] [| o | fields json]]; reflexivity.
Qed.

Lemma set_calls this nextLong cid item callback :
  fst (set this nextLong cid (Some item) callback)
  = (fst (assignId nextLong item)
     ++ [FindOneAndUpdate
           [("_id", Json.get "_id" (newDocument nextLong item))]
           (newDocument nextLong item) {| new := true; upsert := true |}])%list.
Proof.
  unfold set. destruct (findOneAndUpdate _ _ _ _) as [err doc]. reflexivity.
Qed.

(** C6: for a non-null entity, create and set hand the driver a document
    from which the id field has been removed and whose _id is then set:
    to the entity's id when that id is non-null and non-empty (truthy),
    and otherwise to a key obtained from the id generator, which is asked
    only in that case. *)
Theorem create_and_set_assign_id :
  forall (this : IdentifiableMongoDbPersistence.t) (nextLong : string)
         (cid : option string) (item : Json.object) (callback : bool),
    let id := Json.get "id" item in
    let key := if Json.truthy id then id else Json.VString nextLong in
    let asked := if Json.truthy id then [] else [NextLong] in
    let document := newDocument nextLong item in
    document = Json.set "_id" key (Json.omit "id" item) /\
    Json.has "id" document = false /\
    Json.get "_id" document = key /\
    fst (create this nextLong cid (Some item) callback)
    = (asked ++ [Create document])%list /\
    fst (set this nextLong cid (Some item) callback)
    = (asked ++ [FindOneAndUpdate [("_id", key)] document
                   {| new := true; upsert := true |}])%list /\
    (forall s, id = Json.VString s -> s <> "" -> key = Json.VString s) /\
    (id = Json.VNull \/ id = Json.VString "" -> key = Json.VString nextLong).
Proof.
  intros this nextLong cid item callback id key asked document.
  assert (Hdoc : document = Json.set "_id" key (Json.omit "id" item)).
  { unfold document, newDocument, assignId, convertFromPublic. fold id.
    unfold key. now destruct (Json.truthy id). }
  assert (Hkey : Json.get "_id" document = key) by (rewrite Hdoc; apply get_set).
  assert (Hasked : fst (assignId nextLong item) = asked).
  { unfold assignId, asked. fold id. now destruct (Json.truthy id). }
  repeat split.
  - exact Hdoc.
  - rewrite Hdoc, has_set_other by discriminate. apply has_omit.
  - exact Hkey.
  - rewrite create_calls. now rewrite Hasked.
  - rewrite set_calls. fold document. now rewrite Hasked, Hkey.
  - intros s Hs Hne. unfold key. rewrite Hs. cbn [Json.truthy].
    apply String.eqb_neq in Hne. now rewrite Hne.
  - intros [H | H]; unfold key; rewrite H; reflexivity.
Qed.

Lemma create_and_set_assign_id_witness :
  Json.truthy (Json.get "id" [("id", Json.VString "X"); ("key", Json.VString "a")])
  = true /\
  fst (set {| _collection := "dummies"; _model := DocumentStore.disconnected;
              _maxPageSize := 100 |} "fresh" None
         (Some [("id", Json.VString "X"); ("key", Json.VString "a")]) true)
  = [FindOneAndUpdate [("_id", Json.VString "X")]
       [("key", Json.VString "a"); ("_id", Json.VString "X")]
       {| new := true; upsert := true |}] /\
  fst (create {| _collection := "dummies"; _model := DocumentStore.disconnected;
                 _maxPageSize := 100 |} "fresh" None
         (Some [("id", Json.VString ""); ("key", Json.VString "a")]) true)
  = [NextLong; Create [("key", Json.VString "a"); ("_id", Json.VString "fresh")]].
Proof.
  split; [reflexivity | split].
  - exact (proj1 (proj2 (proj2 (proj2 (proj2
             (create_and_set_assign_id
                {| _collection := "dummies"; _model := DocumentStore.disconnected;
                   _maxPageSize := 100 |} "fresh" None
                [("id", Json.VString "X"); ("key", Json.VString "a")] true)))))).
  - exact (proj1 (proj2 (proj2 (proj2
             (create_and_set_assign_id
                {| _collection := "dummies"; _model := DocumentStore.disconnected;
                   _maxPageSize := 100 |} "fresh" None
                [("id", Json.VString ""); ("key", Json.VString "a")] true))))).
Defined.

(** C7, as stated, fails for deleteById: it has no guard for a null id,
    forwards the id to the driver and reports what the driver answers.  On a
    handle that is not connected, update with a null id still completes with
    a null result, while deleteById with a null id ends in the driver's
    error. *)
Lemma deleteById_null_id_reports_driver_error :
  update {| _collection := "dummies"; _model := DocumentStore.disconnected;
            _maxPageSize := 100 |} None (Some [("id", Json.VNull)]) true
  = ([], Called None None) /\
  deleteById {| _collection := "dummies"; _model := DocumentStore.disconnected;
                _maxPageSize := 100 |} None Json.VNull true
  = ([FindByIdAndRemove Json.VNull], Called (Some (External "not connected")) None) /\
  Called (Some (External "not connected")) (@None Json.object)
  <> Called None None.
Proof. split; [reflexivity | split; [reflexivity | discriminate]]. Qed.

(** C7, amended: set with a null entity, update with a null entity or a
    null id, and updatePartially with a null id or null data make no driver
    call and complete with a null result and no error, or silently when no
    callback is given; deleteById tolerates an absent callback as well, but
    passes any id, null included, to the driver and reports the driver's
    answer, which is a null result without error when the driver finds no
    document; create with a null item invokes its callback unconditionally,
    so without a callback it raises. *)
Theorem null_inputs :
  forall (this : IdentifiableMongoDbPersistence.t) (nextLong : string)
         (cid : option string),
    set this nextLong cid None true = ([], Called None None) /\
    set this nextLong cid None false = ([], Silent) /\
    update this cid None true = ([], Called None None) /\
    update this cid None false = ([], Silent) /\
    (forall item, Json.get "id" item = Json.VNull ->
       update this cid (Some item) true = ([], Called None None) /\
       update this cid (Some item) false = ([], Silent)) /\
    (forall id, updatePartially this cid id None true = ([], Called None None) /\
                updatePartially this cid id None false = ([], Silent)) /\
    (forall data,
       updatePartially this cid Json.VNull data true = ([], Called None None) /\
       updatePartially this cid Json.VNull data false = ([], Silent)) /\
    (forall id,
       deleteById this cid id false = ([FindByIdAndRemove id], Silent) /\
       deleteById this cid id true
       = ([FindByIdAndRemove id],
          Called (fst (findByIdAndRemove (_model this) id))
            (convertToPublic (snd (findByIdAndRemove (_model this) id)))) /\
       (findByIdAndRemove (_model this) id = (None, Missing) ->
        deleteById this cid id true = ([FindByIdAndRemove id], Called None None))) /\
    create this nextLong cid None true = ([], Called None None) /\
    create this nextLong cid None false = ([], Threw).
Proof.
  intros this nextLong cid.
  do 4 (split; [reflexivity |]).
  split; [intros item Hid; unfold update; rewrite Hid; now split |].
  split; [intros id; now split |].
  split; [intros data; unfold updatePartially; destruct data; now split |].
  split; [| now split].
  intros id. unfold deleteById. destruct (findByIdAndRemove _ _) as [err old].
  split; [reflexivity | split; [reflexivity |]].
  intros H. now inversion H.
Qed.

Lemma null_inputs_witness :
  update {| _collection := "dummies"; _model := DocumentStore.disconnected;
            _maxPageSize := 100 |} None (Some [("key", Json.VString "a")]) true
  = ([], Called None None).
Proof.
  destruct (null_inputs
              {| _collection := "dummies"; _model := DocumentStore.disconnected;
                 _maxPageSize := 100 |} "fresh" None)
    as (_ & _ & _ & _ & Hupdate & _).
  apply Hupdate. reflexivity.
Defined.

(** C8, as stated, fails: convertToPublic renames nothing.  A document
    whose toJSON() keeps the stored fields reaches the caller with its key
    under _id and with no id field, from a direct conversion as well as
    from create. *)
Lemma convertToPublic_keeps_underscore_id :
  convertToPublic (Samples.rawDummy "1" "a")
  = Some [("_id", Json.VString "1"); ("key", Json.VString "a")] /\
  Json.has "_id" [("_id", Json.VString "1"); ("key", Json.VString "a")] = true /\
  Json.has "id" [("_id", Json.VString "1"); ("key", Json.VString "a")] = false /\
  snd (create {| _collection := "dummies";
                 _model := Samples.accepting (fun doc => doc);
                 _maxPageSize := 100 |} "fresh" None
         (Some [("id", Json.VString "1"); ("key", Json.VString "a")]) true)
  = Called None (Some [("key", Json.VString "a"); ("_id", Json.VString "1")]).
Proof. repeat split. Qed.

(** C8, amended: the default conversion hook performs no renaming of its
    own.  It passes null and plain objects through unchanged and replaces a
    driver document by the result of its toJSON(), so an entity handed to a
    caller shows its key under id and not under _id exactly when the
    result of toJSON() does; create hands its callback that conversion of
    the document the driver returns. *)
Theorem convertToPublic_delegates :
  forall (this : IdentifiableMongoDbPersistence.t) (nextLong : string)
         (cid : option string),
    convertToPublic Missing = None /\
    (forall o, convertToPublic (Plain o) = Some o) /\
    (forall fields json,
       convertToPublic (Document fields json) = Some json /\
       forall key, (exists o, convertToPublic (Document fields json) = Some o /\
                              Json.has key o = true)
                   <-> Json.has key json = true) /\
    (forall item err fields json,
       Driver.create (_model this) (newDocument nextLong item)
       = (err, Document fields json) ->
       snd (create this nextLong cid (Some item) true) = Called err (Some json)).
Proof.
  intros this nextLong cid.
  split; [reflexivity |].
  split; [reflexivity |].
  split.
  - intros fields json. split; [reflexivity |]. intros key. split.
    + intros (o & Ho & Hk). cbn in Ho. now inversion Ho; subst.
    + intros Hk. exists json. now split.
  - intros item err fields json H. unfold create. rewrite H.
    now destruct err.
Qed.

Lemma convertToPublic_delegates_witness :
  snd (create {| _collection := "dummies";
                 _model := Samples.accepting
                             (fun doc => ("id", Json.get "_id" doc)
                                         :: Json.omit "_id" doc);
                 _maxPageSize := 100 |} "fresh" None
         (Some [("id", Json.VString "1"); ("key", Json.VString "a")]) true)
  = Called None (Some [("id", Json.VString "1"); ("key", Json.VString "a")]).
Proof.
  destruct (convertToPublic_delegates
              {| _collection := "dummies";
                 _model := Samples.accepting
                             (fun doc => ("id", Json.get "_id" doc)
                                         :: Json.omit "_id" doc);
                 _maxPageSize := 100 |} "fresh" None)
    as (_ & _ & _ & Hcreate).
  apply (Hcreate [("id", Json.VString "1"); ("key", Json.VString "a")] None
           [("key", Json.VString "a"); ("_id", Json.VString "1")]).
  reflexivity.
Defined.




End CrudClaims.

(** ** More on the merged options and on uri composition *)

Section ResolverExtras.

Import MongoDbConnectionResolver UriSpec Samples.

Lemma filter_twice (A : Type) (f g : A -> bool) (l : list A) :
  List.filter f (List.filter g l) = List.filter (fun x => g x && f x) l.
Proof.
  induction l as [| x l IH]; [reflexivity |].
  cbn [List.filter]. destruct (g x); cbn [List.filter andb]; now rewrite IH.
Qed.

Lemma getAsString_put_same (key : string) (value : option string)
  (m : ConfigParams.t) :
  ConfigParams.getAsString key (ConfigParams.put key value m) = value.
Proof.
  induction m as [| [k v] m IH]; cbn [ConfigParams.put ConfigParams.getAsString].
  - now rewrite String.eqb_refl.
  - destruct (k =? key) eqn:Hk; cbn [ConfigParams.getAsString]; now rewrite Hk.
Qed.

Lemma getAsString_put_other (key other : string) (value : option string)
  (m : ConfigParams.t) :
  other <> key ->
  ConfigParams.getAsString key (ConfigParams.put other value m)
  = ConfigParams.getAsString key m.
Proof.
  intros Hne. induction m as [| [k v] m IH];
    cbn [ConfigParams.put ConfigParams.getAsString].
  - apply String.eqb_neq in Hne. now rewrite Hne.
  - destruct (String.eqb_spec k other) as [-> | Hko];
      cbn [ConfigParams.getAsString].
    + apply String.eqb_neq in Hne. now rewrite Hne.
    + now rewrite IH.
Qed.

Lemma getAsString_putAll_absent (key : string) (src : ConfigParams.t) :
  forall dst,
    ~ In key (map fst src) ->
    ConfigParams.getAsString key (ConfigParams.putAll dst src)
    = ConfigParams.getAsString key dst.
Proof.
  unfold ConfigParams.putAll.
  induction src as [| [k v] src IH]; intros dst Hn; [reflexivity |].
  cbn [fold_left fst snd]. cbn [map fst] in Hn. rewrite IH.
  - apply getAsString_put_other. intros ->. apply Hn. now left.
  - intros Hin. apply Hn. now right.
Qed.

Lemma getAsString_putAll_member (key : string) (value : option string)
  (src : ConfigParams.t) :
  forall dst,
    NoDup (map fst src) ->
    In (key, value) src ->
    ConfigParams.getAsString key (ConfigParams.putAll dst src) = value.
Proof.
  induction src as [| [k v] src IH]; intros dst Hnd Hin; [contradiction |].
  cbn [map fst] in Hnd. inversion Hnd as [| ? ? Hk Hrest]; subst.
  destruct Hin as [Heq | Hin].
  - inversion Heq; subst. unfold ConfigParams.putAll. cbn [fold_left fst snd].
    change (fold_left _ src ?d) with (ConfigParams.putAll d src).
    rewrite getAsString_putAll_absent by assumption.
    apply getAsString_put_same.
  - unfold ConfigParams.putAll. cbn [fold_left fst snd].
    change (fold_left _ src ?d) with (ConfigParams.putAll d src).
    now apply IH.
Qed.

Lemma getAsString_remove_other (key other : string) (m : ConfigParams.t) :
  other <> key ->
  ConfigParams.getAsString key (ConfigParams.remove other m)
  = ConfigParams.getAsString key m.
Proof.
  intros Hne. unfold ConfigParams.remove.
  induction m as [| [k v] m IH]; [reflexivity |].
  cbn [List.filter fst ConfigParams.getAsString].
  destruct (String.eqb_spec k other) as [-> | Hko]; cbn [negb].
  - apply String.eqb_neq in Hne. now rewrite Hne.
  - cbn [ConfigParams.getAsString]. now rewrite IH.
Qed.

Lemma reserved_false (key : string) :
  Vocabulary.reserved key = false ->
  "host" <> key /\ "port" <> key /\ "database" <> key /\ "username" <> key /\
  "password" <> key.
Proof.
  unfold Vocabulary.reserved. cbn [existsb]. intros H.
  repeat (apply orb_false_elim in H; destruct H as [?H H]).
  repeat split; intros <-; cbn in *; discriminate.
Qed.

Lemma firstUri_none_inv (connections : list ConnectionParams) :
  firstUri connections = None ->
  Forall (fun c => truthy (getUri c) = false) connections.
Proof.
  induction connections as [| c l IH]; [constructor |].
  cbn [firstUri]. destruct (truthy (getUri c)) eqn:Ht.
  - intros Hu. rewrite Hu in Ht. discriminate.
  - intros H. constructor; [exact Ht | now apply IH].
Qed.

Lemma truthy_or_else (a b : option string) :
  truthy (or_else a b) = truthy a || truthy b.
Proof.
  unfold or_else. destruct (truthy a) eqn:Ha; [exact Ha | reflexivity].
Qed.

Lemma database_loop_truthy (connections : list ConnectionParams) :
  forall database : option string,
    truthy (fold_left
              (fun database connection => or_else database (getDatabase connection))
              connections database)
    = truthy database || existsb (fun c => truthy (getDatabase c)) connections.
Proof.
  induction connections as [| c l IH]; intros database; cbn [fold_left existsb].
  - now rewrite orb_false_r.
  - now rewrite IH, truthy_or_else, orb_assoc.
Qed.

Lemma pickDatabase_last (init : list ConnectionParams) (last : ConnectionParams) :
  pickDatabase (init ++ [last])%list
  = or_else (pickDatabase init) (getDatabase last).
Proof.
  unfold pickDatabase. now rewrite fold_left_app.
Qed.

Lemma no_database_found (connections : list ConnectionParams) :
  truthy (pickDatabase connections) = false
  <-> Forall (fun c => truthy (getDatabase c) = false) connections.
Proof.
  unfold pickDatabase. rewrite database_loop_truthy. cbn [truthy String.eqb negb orb].
  rewrite Forall_forall. split.
  - intros H c Hin. destruct (truthy (getDatabase c)) eqn:Ht; [| reflexivity].
    rewrite <- H. symmetry. apply existsb_exists. now exists c.
  - intros H. destruct (existsb _ connections) eqn:He; [| reflexivity].
    apply existsb_exists in He. destruct He as (c & Hin & Ht).
    now rewrite (H c Hin) in Ht.
Qed.

Lemma put_keeps_keys (key other : string) (value : option string)
  (m : ConfigParams.t) :
  In key (map fst m) -> In key (map fst (ConfigParams.put other value m)).
Proof.
  intros H. rewrite put_keys.
  destruct (in_dec string_dec other (map fst m)); [exact H |].
  apply in_or_app. now left.
Qed.

Lemma put_adds_key (key : string) (value : option string) (m : ConfigParams.t) :
  In key (map fst (ConfigParams.put key value m)).
Proof.
  rewrite put_keys. destruct (in_dec string_dec key (map fst m)) as [H | H];
    [exact H |].
  apply in_or_app. right. now left.
Qed.

Lemma putAll_keeps_keys (key : string) (src : ConfigParams.t) :
  forall dst,
    In key (map fst dst) -> In key (map fst (ConfigParams.putAll dst src)).
Proof.
  unfold ConfigParams.putAll.
  induction src as [| [k v] src IH]; intros dst H; [exact H |].
  cbn [fold_left fst snd]. now apply IH, put_keeps_keys.
Qed.

Lemma putAll_adds_keys (key : string) (src : ConfigParams.t) :
  forall dst,
    In key (map fst src) -> In key (map fst (ConfigParams.putAll dst src)).
Proof.
  induction src as [| [k v] src IH]; intros dst H; [contradiction |].
  unfold ConfigParams.putAll. cbn [fold_left fst snd].
  change (fold_left _ src ?d) with (ConfigParams.putAll d src).
  destruct H as [<- | H]; [| now apply IH].
  apply putAll_keeps_keys, put_adds_key.
Qed.

Lemma composeOptions_keys (connections : list ConnectionParams)
  (credential : option CredentialParams) :
  ConfigParams.getKeys (composeOptions connections credential)
  = List.filter (fun key => negb (Vocabulary.reserved key))
      (ConfigParams.getKeys
         (ConfigParams.override
            (ConfigParams.mergeConfigs (map connEntries connections))
            (option_map credEntries credential))).
Proof.
  unfold composeOptions, ConfigParams.getKeys.
  rewrite !remove_keys, !filter_twice. apply filter_ext. intros key.
  unfold Vocabulary.reserved. cbn [existsb].
  destruct (key =? "host"), (key =? "port"), (key =? "database"),
    (key =? "username"), (key =? "password"); reflexivity.
Qed.

(** X2: a setting of the credential that is not one of the five removed
    keys reaches the parameters with the credential's value, whatever the
    connection descriptors say under the same key. *)
Theorem credential_setting_overrides :
  forall (connections : list ConnectionParams) (credential : CredentialParams)
         (key : string) (value : option string),
    NoDup (map fst (credEntries credential)) ->
    In (key, value) (credEntries credential) ->
    Vocabulary.reserved key = false ->
    ConfigParams.getAsString key (composeOptions connections (Some credential))
    = value /\
    In key (ConfigParams.getKeys (composeOptions connections (Some credential))).
Proof.
  intros connections credential key value Hnd Hin Hres.
  destruct (reserved_false key Hres) as (Hh & Hp & Hd & Hu & Hw).
  assert (Hget :
    ConfigParams.getAsString key (composeOptions connections (Some credential))
    = value).
  { unfold composeOptions. rewrite !getAsString_remove_other by assumption.
    cbn [option_map ConfigParams.override].
    now apply getAsString_putAll_member. }
  split; [exact Hget |].
  rewrite composeOptions_keys. apply filter_In. split; [| now rewrite Hres].
  cbn [option_map ConfigParams.override]. unfold ConfigParams.getKeys.
  apply putAll_adds_keys.
  change key with (fst (key, value)). now apply in_map.
Qed.

Lemma credential_setting_overrides_witness :
  ConfigParams.getAsString "authSource"
    (composeOptions
       [{| getUri := None; getHost := Some "a"; getPort := Some 27017%Z;
           getDatabase := Some "test";
           connEntries := [("host", Some "a"); ("authSource", Some "local")] |}]
       (Some {| getUsername := Some "u"; getPassword := Some "p";
                credEntries := [("username", Some "u"); ("password", Some "p");
                                ("authSource", Some "admin")] |}))
  = Some "admin".
Proof.
  refine (proj1 (credential_setting_overrides _
                   {| getUsername := Some "u"; getPassword := Some "p";
                      credEntries := [("username", Some "u"); ("password", Some "p");
                                      ("authSource", Some "admin")] |}
                   "authSource" (Some "admin") _ _ _)).
  - repeat constructor; cbn; intuition discriminate.
  - cbn. auto.
  - reflexivity.
Defined.

(** X3: once validation has passed, composeUri returns a uri (it does not
    raise) for every list in which no descriptor has the empty string as its
    uri, and resolve then hands that uri to the callback. *)
Theorem validated_composition_returns :
  forall (cid : option string) (connections : list ConnectionParams)
         (credential : option CredentialParams),
    validateConnections cid (Some connections) = None ->
    Forall (fun c => getUri c <> Some "") connections ->
    exists uri,
      composeUri connections credential = Returned uri /\
      forall order,
        resolve cid (None, Some connections) (None, credential) order
        = Resolved uri.
Proof.
  intros cid connections credential Hvalid Hne.
  assert (Hret : exists uri, composeUri connections credential = Returned uri).
  { unfold composeUri. destruct (firstUri connections) as [uri |] eqn:Hfirst.
    - now exists uri.
    - apply firstUri_none_inv in Hfirst.
      assert (Hdb : Forall (fun c => exists d, getDatabase c = Some d) connections).
      { destruct connections as [| c0 l]; [constructor |].
        rewrite validateConnections_cons in Hvalid.
        apply validateEach_all in Hvalid.
        rewrite Forall_forall in *. intros c Hin.
        assert (Hu : getUri c = None).
        { specialize (Hfirst c Hin). specialize (Hne c Hin).
          destruct (getUri c) as [[| ch u] |]; [congruence | discriminate |
                                                reflexivity]. }
        now destruct (valid_without_uri cid c (Hvalid c Hin) Hu) as (_ & _ & Hd). }
      rewrite pickDatabase_first by assumption. eexists. reflexivity. }
  destruct Hret as [uri Huri]. exists uri. split; [exact Huri |].
  intros order. unfold resolve. cbn [fst snd]. rewrite Hvalid.
  destruct order; cbn; now rewrite Huri.
Qed.

Lemma validated_composition_returns_witness :
  exists uri,
    composeUri [node "a" 27017 "test"; node "b" 27018 "test"]
      (Some (login "u" "p"))
    = Returned uri /\
    forall order,
      resolve None (None, Some [node "a" 27017 "test"; node "b" 27018 "test"])
        (None, Some (login "u" "p")) order
      = Resolved uri.
Proof.
  apply (validated_composition_returns None
           [node "a" 27017 "test"; node "b" 27018 "test"]
           (Some (login "u" "p"))).
  - reflexivity.
  - repeat constructor; discriminate.
Defined.

(** X4: composeUri raises exactly when no descriptor has a non-empty uri, no
    descriptor has a non-empty database name, and the last descriptor's
    database is null; in particular it never raises on an empty list, and an
    empty database name on the last descriptor prevents the failure. *)
Theorem composeUri_raises_iff :
  forall (connections : list ConnectionParams)
         (credential : option CredentialParams),
    composeUri connections credential = TypeError
    <-> (Forall (fun c => truthy (getUri c) = false) connections /\
         Forall (fun c => truthy (getDatabase c) = false) connections /\
         exists init last,
           connections = (init ++ [last])%list /\ getDatabase last = None).
Proof.
  intros connections credential. unfold composeUri. split.
  - destruct (firstUri connections) eqn:Hfirst; [discriminate |].
    apply firstUri_none_inv in Hfirst.
    destruct (pickDatabase connections) eqn:Hpick; [discriminate |]. intros _.
    split; [exact Hfirst |].
    split; [apply no_database_found; now rewrite Hpick |].
    destruct (exists_last (l := connections)) as (init & last & ->).
    { intros ->. discriminate. }
    exists init, last. split; [reflexivity |].
    rewrite pickDatabase_last in Hpick. unfold or_else in Hpick.
    destruct (truthy (pickDatabase init)) eqn:Ht; [| exact Hpick].
    rewrite Hpick in Ht. discriminate.
  - intros (Huri & Hdb & init & last & -> & Hlast).
    rewrite firstUri_none by assumption.
    rewrite pickDatabase_last, Hlast. unfold or_else.
    apply Forall_app in Hdb. destruct Hdb as [Hinit _].
    apply no_database_found in Hinit. now rewrite Hinit.
Qed.

(** X5: resolve hands a uri to its callback exactly when neither lookup
    reported an error, the resolved descriptors passed validation, and
    composeUri returned that uri; the order in which the lookups call back
    plays no part in it. *)
Theorem resolve_succeeds_iff :
  forall (cid : option string)
         (resolveAll : option error * option (list ConnectionParams))
         (lookup : option error * option CredentialParams)
         (order : schedule) (uri : string),
    resolve cid resolveAll lookup order = Resolved uri
    <-> (fst resolveAll = None /\ fst lookup = None /\
         exists connections,
           snd resolveAll = Some connections /\
           validateConnections cid (Some connections) = None /\
           composeUri connections (snd lookup) = Returned uri).
Proof.
  intros cid [err1 connections] [err2 credential] order uri.
  unfold resolve. cbn [fst snd]. split.
  - destruct err1 as [e1 |], err2 as [e2 |], order; cbn; try discriminate;
      destruct (validateConnections cid connections) eqn:Hv; try discriminate;
      (destruct connections as [l |]; [| discriminate]);
      (destruct (composeUri l credential) eqn:Hc; [| discriminate]);
      intros H; inversion H; subst;
      (split; [reflexivity | split; [reflexivity |]]);
      exists l; now repeat split.
  - intros (-> & -> & l & -> & Hv & Hc). rewrite Hv.
    destruct order; cbn; now rewrite Hc.
Qed.

(** X6: the order in which the two lookups call back changes the result of
    resolve only when both branches fail: with at most one failing branch
    both orders give the same result, and with two failing branches each
    order reports the error of the branch that called back first. *)
Theorem schedule_matters_only_when_both_fail :
  forall (cid : option string)
         (resolveAll : option error * option (list ConnectionParams))
         (lookup : option error * option CredentialParams),
    let branch :=
      match fst resolveAll with
      | Some err => Some err
      | None => validateConnections cid (snd resolveAll)
      end in
    (branch = None \/ fst lookup = None ->
     resolve cid resolveAll lookup ConnectionsFirst
     = resolve cid resolveAll lookup CredentialFirst) /\
    (forall err1 err2,
        branch = Some err1 -> fst lookup = Some err2 ->
        resolve cid resolveAll lookup ConnectionsFirst = Failed err1 /\
        resolve cid resolveAll lookup CredentialFirst = Failed err2).
Proof.
  intros cid [err1 connections] [err2 credential] branch.
  unfold resolve. cbn [fst snd] in *. fold branch. split.
  - intros [-> | ->]; [destruct err2 | destruct branch]; reflexivity.
  - intros e1 e2 -> ->. now split.
Qed.

Lemma schedule_matters_only_when_both_fail_witness :
  resolve None (None, Some []) (Some (External "store offline"), None)
    ConnectionsFirst
  = Failed (ConfigException None "NO_CONNECTION" "Database connection is not set") /\
  resolve None (None, Some []) (Some (External "store offline"), None)
    CredentialFirst
  = Failed (External "store offline").
Proof.
  apply (proj2 (schedule_matters_only_when_both_fail None (None, Some [])
                  (Some (External "store offline"), None))); reflexivity.
Defined.

End ResolverExtras.

(** ** The merged options are the settings of the specification *)

Section MergedFacts.

Import MongoDbConnectionResolver UriSpec Samples MergedSettings.

Lemma put_keys_mem (key : string) (value : option string) (m : ConfigParams.t) :
  map fst (ConfigParams.put key value m)
  = if existsb (fun k => k =? key) (map fst m) then map fst m
    else (map fst m ++ [key])%list.
Proof.
  induction m as [| [k v] m IH]; [reflexivity |].
  cbn [ConfigParams.put map fst existsb].
  destruct (k =? key) eqn:Hk; cbn [orb map fst]; [reflexivity |].
  rewrite IH. now destruct (existsb _ (map fst m)).
Qed.

Lemma keys_putAll (src : ConfigParams.t) :
  forall dst,
    map fst (ConfigParams.putAll dst src)
    = (map fst dst
       ++ List.filter
            (fun k => negb (existsb (fun k' => k' =? k) (map fst dst)))
            (firstOccurrences (map fst src)))%list.
Proof.
  induction src as [| [k v] src IH]; intros dst.
  - cbn. now rewrite app_nil_r.
  - unfold ConfigParams.putAll. cbn [fold_left fst snd].
    change (fold_left _ src ?d) with (ConfigParams.putAll d src).
    rewrite IH, put_keys_mem. cbn [map fst firstOccurrences List.filter].
    destruct (existsb (fun k' => k' =? k) (map fst dst)) eqn:Hmem; cbn [negb].
    + f_equal. rewrite filter_twice. apply filter_ext. intros x.
      destruct (String.eqb_spec x k) as [-> | Hne]; cbn [negb andb];
        [now rewrite Hmem | reflexivity].
    + rewrite <- app_assoc. cbn [app]. do 2 f_equal.
      rewrite filter_twice. apply filter_ext. intros x.
      rewrite existsb_app. cbn [existsb]. rewrite orb_false_r, negb_orb.
      rewrite (String.eqb_sym k x). apply andb_comm.
Qed.

Lemma lastValue_absent (key : string) (fields : ConfigParams.t) :
  existsb (fun kv => fst kv =? key) fields = false ->
  lastValue key fields = None.
Proof.
  induction fields as [| [k v] rest IH]; [reflexivity |].
  cbn [existsb fst lastValue]. intros H.
  apply orb_false_elim in H. destruct H as [Hk Hrest].
  now rewrite Hrest, Hk.
Qed.

Lemma lookup_putAll (key : string) (src : ConfigParams.t) :
  forall dst,
    ConfigParams.getAsString key (ConfigParams.putAll dst src)
    = if existsb (fun kv => fst kv =? key) src then lastValue key src
      else ConfigParams.getAsString key dst.
Proof.
  induction src as [| [k v] src IH]; intros dst; [reflexivity |].
  unfold ConfigParams.putAll. cbn [fold_left fst snd].
  change (fold_left _ src ?d) with (ConfigParams.putAll d src).
  rewrite IH. cbn [existsb fst lastValue].
  destruct (existsb (fun kv => fst kv =? key) src); [now rewrite orb_true_r |].
  rewrite orb_false_r. destruct (String.eqb_spec k key) as [-> | Hne].
  - apply getAsString_put_same.
  - now apply getAsString_put_other.
Qed.

Lemma rebuild_from_keys (m : ConfigParams.t) :
  NoDup (map fst m) ->
  m = map (fun key => (key, ConfigParams.getAsString key m)) (map fst m).
Proof.
  induction m as [| [k v] m IH]; intros Hnd; [reflexivity |].
  cbn [map fst] in *. inversion Hnd as [| ? ? Hk Hm]; subst.
  cbn [ConfigParams.getAsString]. rewrite String.eqb_refl. f_equal.
  rewrite (IH Hm) at 1. apply map_ext_in. intros key Hin.
  destruct (String.eqb_spec k key) as [-> | Hne]; [contradiction | reflexivity].
Qed.

Lemma put_absent (key : string) (value : option string) (dst : ConfigParams.t) :
  ~ In key (map fst dst) ->
  ConfigParams.put key value dst = (dst ++ [(key, value)])%list.
Proof.
  induction dst as [| [k v] dst IH]; intros Hn; [reflexivity |].
  cbn [ConfigParams.put app]. cbn [map fst] in Hn.
  destruct (String.eqb_spec k key) as [-> | Hne].
  - exfalso. apply Hn. now left.
  - rewrite IH; [reflexivity |]. intros Hin. apply Hn. now right.
Qed.

Lemma putAll_fresh (src : ConfigParams.t) :
  forall dst,
    NoDup (map fst (dst ++ src)%list) ->
    ConfigParams.putAll dst src = (dst ++ src)%list.
Proof.
  induction src as [| [k v] src IH]; intros dst Hnd.
  - cbn. now rewrite app_nil_r.
  - unfold ConfigParams.putAll. cbn [fold_left fst snd].
    change (fold_left _ src ?d) with (ConfigParams.putAll d src).
    rewrite put_absent.
    + rewrite IH; rewrite <- app_assoc; [reflexivity | exact Hnd].
    + rewrite map_app in Hnd. cbn [map fst] in Hnd.
      apply NoDup_remove_2 in Hnd. intros Hin. apply Hnd.
      apply in_or_app. now left.
Qed.

Lemma putAll_app (a b dst : ConfigParams.t) :
  ConfigParams.putAll dst (a ++ b)%list
  = ConfigParams.putAll (ConfigParams.putAll dst a) b.
Proof.
  unfold ConfigParams.putAll. apply fold_left_app.
Qed.

Lemma merge_loop (configs : list ConfigParams.t) :
  forall acc,
    fold_left ConfigParams.putAll configs acc
    = ConfigParams.putAll acc (concat configs).
Proof.
  induction configs as [| c configs IH]; intros acc; [reflexivity |].
  cbn [fold_left concat]. now rewrite IH, putAll_app.
Qed.

Lemma merged_options (connections : list ConnectionParams)
  (credential : option CredentialParams) :
  ConfigParams.override
    (ConfigParams.mergeConfigs (map connEntries connections))
    (option_map credEntries credential)
  = ConfigParams.putAll [] (fields connections credential).
Proof.
  assert (Hsame :
    ConfigParams.putAll []
      (ConfigParams.mergeConfigs (map connEntries connections))
    = ConfigParams.mergeConfigs (map connEntries connections)).
  { apply putAll_fresh. cbn [app]. apply mergeConfigs_unique. }
  unfold fields, ConfigParams.override.
  destruct credential as [credential |]; cbn [option_map]; rewrite Hsame;
    unfold ConfigParams.mergeConfigs; rewrite merge_loop.
  - now rewrite putAll_app.
  - now rewrite app_nil_r.
Qed.

Lemma composeOptions_settings (connections : list ConnectionParams)
  (credential : option CredentialParams) :
  composeOptions connections credential = settingsOf connections credential.
Proof.
  rewrite (rebuild_from_keys (composeOptions connections credential))
    by apply composeOptions_unique.
  fold (ConfigParams.getKeys (composeOptions connections credential)).
  rewrite composeOptions_keys, merged_options.
  unfold settingsOf, ConfigParams.getKeys. rewrite keys_putAll.
  cbn [map app existsb negb]. 
  assert (Hall : forall l : list string, List.filter (fun _ => true) l = l).
  { induction l as [| x l IH]; [reflexivity |]. cbn. now rewrite IH. }
  rewrite Hall. apply map_ext_in. intros key Hin.
  apply filter_In in Hin. destruct Hin as [_ Hres].
  apply negb_true_iff in Hres.
  destruct (reserved_false key Hres) as (Hh & Hp & Hd & Hu & Hw).
  f_equal. unfold composeOptions.
  rewrite !getAsString_remove_other by assumption.
  rewrite merged_options, lookup_putAll.
  destruct (existsb _ (fields connections credential)) eqn:He; [reflexivity |].
  now rewrite lastValue_absent.
Qed.

(** C1: when resolve reaches composeUri (validation passed) and no
    descriptor carries a uri, the uri is "mongodb://" followed by the
    authentication prefix, the comma-joined host[:port] entries in
    descriptor order (each entry being non-empty), "/" and the first
    database name, and the parameters: "?" and the "&"-joined key=value
    pairs of the merged settings of the descriptors and the credential
    (keys in the order of their first occurrence, the last value written
    winning, the five reserved keys left out; keys and values being
    non-empty, a null value written as the key alone), or nothing when no
    setting remains.  One descriptor localhost:27017 with database test and no
    credential gives "mongodb://localhost:27017/test"; the descriptors
    a:27017 and b:27018 with database test and the credential u/p give
    "mongodb://u:p@a:27017,b:27018/test". *)
Theorem composeUri_assembles :
  (forall (cid : option string) (connections : list ConnectionParams)
          (credential : option CredentialParams) (order : schedule),
      validateConnections cid (Some connections) = None ->
      Forall (fun c => getUri c = None) connections ->
      Forall (fun c => hostPort c <> "") connections ->
      Forall (fun kv => fst kv <> "" /\ snd kv <> Some "")
        (settingsOf connections credential) ->
      let uri := "mongodb://" ++ authPrefix credential ++ hostList connections
                 ++ databasePart connections
                 ++ paramsPart (settingsOf connections credential) in
      composeUri connections credential = Returned uri /\
      resolve cid (None, Some connections) (None, credential) order = Resolved uri) /\
  (forall (cid : option string) (order : schedule),
      resolve cid (None, Some [node "localhost" 27017 "test"]) (None, None) order
      = Resolved "mongodb://localhost:27017/test") /\
  (forall (cid : option string) (order : schedule),
      resolve cid (None, Some [node "a" 27017 "test"; node "b" 27018 "test"])
        (None, Some (login "u" "p")) order
      = Resolved "mongodb://u:p@a:27017,b:27018/test").
Proof.
  split; [| split; intros cid []; reflexivity].
  intros cid connections credential order Hvalid Huri Hhosts Hsettings uri.
  assert (Hcompose : composeUri connections credential = Returned uri).
  { unfold composeUri.
    rewrite firstUri_none
      by (eapply Forall_impl; [| exact Huri]; intros c Hc; now rewrite Hc).
    rewrite composeHosts_join by assumption.
    assert (Hdb : Forall (fun c => exists d, getDatabase c = Some d) connections).
    { destruct connections as [| c0 l]; [constructor |].
      rewrite validateConnections_cons in Hvalid.
      apply validateEach_all in Hvalid.
      rewrite Forall_forall in *. intros c Hin.
      now destruct (valid_without_uri cid c (Hvalid c Hin) (Huri c Hin))
        as (_ & _ & Hd). }
    rewrite pickDatabase_first by assumption.
    rewrite composeAuth_prefix.
    rewrite composeParams_settings.
    - rewrite composeOptions_settings. unfold uri, databasePart.
      destruct (firstDatabase connections) as [d |] eqn:Hd; [| reflexivity].
      now rewrite (nonempty_true d (firstDatabase_nonempty _ _ Hd)).
    - apply composeOptions_unique.
    - rewrite composeOptions_settings.
      eapply Forall_impl; [| exact Hsettings]. now intros kv [Hk _]. }
  split; [exact Hcompose |].
  unfold resolve. cbn [fst snd]. rewrite Hvalid.
  destruct order; cbn; now rewrite Hcompose.
Qed.

Lemma composeUri_assembles_witness :
  resolve None
    (None,
     Some [LibraryDescriptor.read
             [("host", Some "a"); ("port", Some "27017");
              ("database", Some "test"); ("replicaSet", Some "rs0");
              ("ssl", Some "true")] 27017;
           LibraryDescriptor.read
             [("host", Some "b"); ("port", Some "27018");
              ("database", Some "test"); ("replicaSet", Some "rs1")] 27018])
    (None,
     Some {| getUsername := Some "u"; getPassword := Some "p";
             credEntries := [("username", Some "u"); ("password", Some "p");
                             ("authSource", Some "admin");
                             ("ssl", Some "false")] |})
    CredentialFirst
  = Resolved
      "mongodb://u:p@a:27017,b:27018/test?replicaSet=rs1&ssl=false&authSource=admin".
Proof.
  refine (proj2 (proj1 composeUri_assembles None
                   [LibraryDescriptor.read
                      [("host", Some "a"); ("port", Some "27017");
                       ("database", Some "test"); ("replicaSet", Some "rs0");
                       ("ssl", Some "true")] 27017;
                    LibraryDescriptor.read
                      [("host", Some "b"); ("port", Some "27018");
                       ("database", Some "test"); ("replicaSet", Some "rs1")]
                      27018]
                   (Some {| getUsername := Some "u"; getPassword := Some "p";
                            credEntries :=
                              [("username", Some "u"); ("password", Some "p");
                               ("authSource", Some "admin");
                               ("ssl", Some "false")] |})
                   CredentialFirst _ _ _ _)).
  - reflexivity.
  - repeat constructor.
  - repeat constructor; discriminate.
  - repeat constructor; discriminate.
Defined.

(** X1: the options that composeUri serialises into the query part are
    exactly the merged settings: the keys of the descriptors' and the
    credential's fields in the order of their first occurrence, without
    host, port, database, username and password, and under each key the
    value written last (the credential's when it has the key, else that of
    the last descriptor that has it); none of the five keys ever appears
    among the parameters. *)
Theorem reserved_settings_are_stripped :
  forall (connections : list ConnectionParams)
         (credential : option CredentialParams),
    let options := composeOptions connections credential in
    let all := fields connections credential in
    options = settingsOf connections credential /\
    ConfigParams.getKeys options
    = List.filter (fun key => negb (Vocabulary.reserved key))
        (firstOccurrences (map fst all)) /\
    (forall key, In key (ConfigParams.getKeys options) ->
       ConfigParams.getAsString key options = lastValue key all) /\
    Forall (fun key => ~ In key (ConfigParams.getKeys options))
      ["host"; "port"; "database"; "username"; "password"].
Proof.
  intros connections credential options all.
  assert (Hopt : options = settingsOf connections credential)
    by apply composeOptions_settings.
  assert (Hkeys : ConfigParams.getKeys options
                  = List.filter (fun key => negb (Vocabulary.reserved key))
                      (firstOccurrences (map fst all))).
  { rewrite Hopt. unfold settingsOf, ConfigParams.getKeys.
    rewrite map_map. cbn [fst]. apply map_id. }
  split; [exact Hopt | split; [exact Hkeys | split]].
  - intros key Hin.
    assert (Hnd : NoDup (map fst options)) by apply composeOptions_unique.
    unfold ConfigParams.getKeys in Hin. apply in_map_iff in Hin.
    destruct Hin as ([k v] & <- & Hin).
    rewrite (getAsString_member options (k, v) Hnd Hin). cbn [fst snd].
    rewrite Hopt in Hin. unfold settingsOf in Hin. apply in_map_iff in Hin.
    destruct Hin as (k' & Heq & _). now inversion Heq.
  - rewrite Hkeys. repeat constructor; intros Hin; apply filter_In in Hin;
      destruct Hin as [_ Hres]; discriminate.
Qed.

Lemma nullable_not_empty (key : string) (settings : ConfigParams.t) :
  LibraryDescriptor.getAsNullableString key settings <> Some "".
Proof.
  unfold LibraryDescriptor.getAsNullableString.
  destruct (ConfigParams.getAsString key settings) as [[| ch s] |]; discriminate.
Qed.

Lemma or_else_not_empty (a b : option string) :
  a <> Some "" -> b <> Some "" -> or_else a b <> Some "".
Proof.
  intros Ha Hb. unfold or_else. now destruct (truthy a).
Qed.

Lemma single_descriptor_uri (c : ConnectionParams)
  (credential : option CredentialParams) (host database : string) :
  getUri c = None -> getHost c = Some host -> getDatabase c = Some database ->
  database <> "" ->
  composeUri [c] credential
  = Returned ("mongodb://" ++ authPrefix credential ++ hostPort c
              ++ ("/" ++ database)
              ++ composeParams (composeOptions [c] credential)).
Proof.
  intros Hu Hh Hd Hne. unfold composeUri, composeHosts, pickDatabase.
  cbn [firstUri fold_left]. rewrite Hu, Hd. cbn [truthy].
  unfold or_else. cbn [truthy String.eqb negb].
  rewrite composeAuth_prefix.
  destruct database as [| ch d]; [congruence | reflexivity].
Qed.

(** C10, as stated, fails: a descriptor whose uri setting is the empty
    string answers null for its uri, so with host, port and database
    missing validation does not accept it but reports NO_HOST, and resolve
    passes that error to its callback instead of a composed string; the same
    happens when only the database is supplied. *)
Lemma empty_uri_is_rejected :
  getUri (LibraryDescriptor.read [("uri", Some "")] 0) = None /\
  validateConnections None (Some [LibraryDescriptor.read [("uri", Some "")] 0])
  = Some (ConfigException None "NO_HOST" "Connection host is not set") /\
  resolve None (None, Some [LibraryDescriptor.read [("uri", Some "")] 0])
    (None, None) ConnectionsFirst
  = Failed (ConfigException None "NO_HOST" "Connection host is not set") /\
  resolve None
    (None,
     Some [LibraryDescriptor.read [("uri", Some ""); ("database", Some "test")] 0])
    (None, None) ConnectionsFirst
  = Failed (ConfigException None "NO_HOST" "Connection host is not set").
Proof. repeat split. Qed.

(** C10, amended: the uri a descriptor answers is never the empty string,
    so the null test of validation and the truthiness test of composition
    agree on it.  A descriptor whose uri setting is the empty string answers
    null: it is validated as a descriptor without a uri and composition finds
    no uri in it; when its host is missing validation fails with NO_HOST and
    resolve reports that error, whatever the credential and the call-back
    order; and when validation accepts it, its host and database are present
    and non-empty, its port is not 0, and resolve returns "mongodb://", the
    authentication prefix, host:port, "/" and the database, followed by the
    parameters. *)
Theorem empty_uri_reads_as_absent :
  (forall (settings : ConfigParams.t) (port : Z),
      let c := LibraryDescriptor.read settings port in
      getUri c <> Some "" /\
      (getUri c <> None <-> truthy (getUri c) = true)) /\
  (forall (cid : option string) (settings : ConfigParams.t) (port : Z),
      ConfigParams.getAsString "uri" settings = Some "" ->
      let c := LibraryDescriptor.read settings port in
      getUri c = None /\
      firstUri [c] = None /\
      (getHost c = None ->
       validateConnections cid (Some [c])
       = Some (ConfigException cid "NO_HOST" "Connection host is not set") /\
       forall (credential : option CredentialParams) (order : schedule),
         resolve cid (None, Some [c]) (None, credential) order
         = Failed (ConfigException cid "NO_HOST" "Connection host is not set")) /\
      (validateConnections cid (Some [c]) = None ->
       exists host database : string,
         getHost c = Some host /\ host <> "" /\ port <> 0%Z /\
         getDatabase c = Some database /\ database <> "" /\
         forall (credential : option CredentialParams) (order : schedule),
         exists params : string,
           resolve cid (None, Some [c]) (None, credential) order
           = Resolved ("mongodb://" ++ authPrefix credential
                       ++ (host ++ ":" ++ showNum port)
                       ++ ("/" ++ database) ++ params))).
Proof.
  split.
  - intros settings port c. split; [apply nullable_not_empty |].
    assert (Hne := nullable_not_empty "uri" settings).
    unfold c. cbn [LibraryDescriptor.read getUri].
    destruct (LibraryDescriptor.getAsNullableString "uri" settings)
      as [[| ch s] |]; [congruence | |].
    + split; [reflexivity | discriminate].
    + split; [congruence | discriminate].
  - intros cid settings port Huri c.
    assert (Hu : getUri c = None).
    { unfold c. cbn [LibraryDescriptor.read getUri].
      unfold LibraryDescriptor.getAsNullableString. now rewrite Huri. }
    split; [exact Hu |].
    split; [cbn [firstUri]; now rewrite Hu |].
    split.
    + intros Hhost.
      assert (Hv : validateConnections cid (Some [c])
                   = Some (ConfigException cid "NO_HOST"
                             "Connection host is not set")).
      { cbn [validateConnections validateEach]. unfold validateConnection.
        now rewrite Hu, Hhost. }
      split; [exact Hv |].
      intros credential order. unfold resolve. cbn [fst snd]. rewrite Hv.
      now destruct order.
    + intros Hv.
      assert (Hc : validateConnection cid c = None).
      { cbn [validateConnections validateEach] in Hv.
        now destruct (validateConnection cid c). }
      destruct (valid_without_uri cid c Hc Hu) as ([host Hh] & Hp & [database Hd]).
      assert (Hhne : host <> "").
      { intros ->. revert Hh. unfold c. cbn [LibraryDescriptor.read getHost].
        apply or_else_not_empty; apply nullable_not_empty. }
      assert (Hdne : database <> "").
      { intros ->. revert Hd. unfold c. cbn [LibraryDescriptor.read getDatabase].
        apply nullable_not_empty. }
      assert (Hport : getPort c = Some port) by reflexivity.
      exists host, database.
      split; [exact Hh |]. split; [exact Hhne |].
      split; [intros ->; now apply Hp |].
      split; [exact Hd |]. split; [exact Hdne |].
      intros credential order.
      exists (composeParams (composeOptions [c] credential)).
      unfold resolve. cbn [fst snd]. rewrite Hv.
      assert (Hcomp := single_descriptor_uri c credential host database
                         Hu Hh Hd Hdne).
      unfold hostPort in Hcomp. rewrite Hh, Hport in Hcomp. cbn [show] in Hcomp.
      destruct order; cbn [fst snd]; now rewrite Hcomp.
Qed.

Lemma empty_uri_reads_as_absent_witness :
  resolve None
    (None,
     Some [LibraryDescriptor.read [("uri", Some ""); ("database", Some "test")] 0])
    (None, Some (login "u" "p")) CredentialFirst
  = Failed (ConfigException None "NO_HOST" "Connection host is not set").
Proof.
  destruct (proj2 empty_uri_reads_as_absent None
              [("uri", Some ""); ("database", Some "test")] 0%Z eq_refl)
    as (_ & _ & Hfail & _).
  apply Hfail. reflexivity.
Defined.


End MergedFacts.

(** ** More on the CRUD operations *)

Section PersistenceExtras.

Import MongoDbPersistence IdentifiableMongoDbPersistence IdentifiableQueries.

Lemma get_set_other (key other : string) (v : Json.value) (o : Json.object) :
  other <> key -> Json.get key (Json.set other v o) = Json.get key o.
Proof.
  intros Hne. induction o as [| [k w] o IH]; cbn [Json.set Json.get].
  - apply String.eqb_neq in Hne. now rewrite Hne.
  - destruct (String.eqb_spec k other) as [-> | Hko]; cbn [Json.get].
    + apply String.eqb_neq in Hne. now rewrite Hne.
    + now rewrite IH.
Qed.

Lemma get_omit_other (key other : string) (o : Json.object) :
  other <> key -> Json.get key (Json.omit other o) = Json.get key o.
Proof.
  intros Hne. unfold Json.omit.
  induction o as [| [k w] o IH]; [reflexivity |].
  cbn [List.filter fst Json.get].
  destruct (String.eqb_spec k other) as [-> | Hko]; cbn [negb].
  - apply String.eqb_neq in Hne. now rewrite Hne.
  - cbn [Json.get]. now rewrite IH.
Qed.

Lemma has_omit_other (key other : string) (o : Json.object) :
  other <> key -> Json.has key (Json.omit other o) = Json.has key o.
Proof.
  intros Hne. unfold Json.omit, Json.has.
  induction o as [| [k w] o IH]; [reflexivity |].
  cbn [List.filter fst existsb].
  destruct (String.eqb_spec k other) as [-> | Hko]; cbn [negb].
  - apply String.eqb_neq in Hne. now rewrite Hne.
  - cbn [existsb fst]. now rewrite IH.
Qed.

Lemma listStatement_record (filter : Json.object)
  (sort select : option Json.object) :
  listStatement filter sort select
  = {| stFilter := filter; stSkip := None; stLimit := None;
       stSort := Vocabulary.clause sort; stSelect := Vocabulary.clause select |}.
Proof.
  unfold listStatement.
  destruct sort as [[| kv s] |], select as [[| kv' s'] |]; reflexivity.
Qed.

Lemma pageStatement_clauses (this : IdentifiableMongoDbPersistence.t)
  (filter : Json.object) (paging : option PagingParams.t)
  (sort select : option Json.object) :
  stFilter (pageStatement this filter paging sort select) = filter /\
  stSort (pageStatement this filter paging sort select) = Vocabulary.clause sort /\
  stSelect (pageStatement this filter paging sort select)
  = Vocabulary.clause select.
Proof.
  unfold pageStatement.
  destruct sort as [[| kv s] |], select as [[| kv' s'] |];
    cbn [given Json.isEmpty negb];
    repeat match goal with |- context [if ?b then _ else _] => destruct b end;
    repeat split.
Qed.

(** X7: getListByFilter runs exactly one query: over the filter it is
    given, without skip and without limit, with a sort clause exactly when
    the sort argument is given and is not an empty object, and with a select
    clause exactly when the select argument is; the query getPageByFilter
    runs first has the same filter and the same two clauses, and the only
    call that may follow it is the count over that filter. *)
Theorem sort_and_select_clauses :
  forall (this : IdentifiableMongoDbPersistence.t) (cid : option string)
         (filter : Json.object) (paging : option PagingParams.t)
         (sort select : option Json.object),
    fst (getListByFilter this cid filter sort select)
    = [Exec {| stFilter := filter; stSkip := None; stLimit := None;
               stSort := Vocabulary.clause sort;
               stSelect := Vocabulary.clause select |}] /\
    exists st rest,
      fst (getPageByFilter this cid filter paging sort select) = Exec st :: rest /\
      stFilter st = filter /\
      stSort st = Vocabulary.clause sort /\
      stSelect st = Vocabulary.clause select /\
      (rest = [] \/ rest = [Count filter]).
Proof.
  intros this cid filter paging sort select. split.
  - unfold getListByFilter. rewrite listStatement_record.
    destruct (exec _ _) as [[err |] items]; reflexivity.
  - destruct (pageStatement_clauses this filter paging sort select)
      as (Hfilter & Hsort & Hselect).
    exists (pageStatement this filter paging sort select).
    assert (Hcalls :
      exists rest,
        fst (getPageByFilter this cid filter paging sort select)
        = Exec (pageStatement this filter paging sort select) :: rest /\
        (rest = [] \/ rest = [Count filter])).
    { unfold getPageByFilter.
      destruct (exec _ _) as [[err |] items]; [exists []; now split; [| left] |].
      destruct (PagingParams.wantsTotal _); [| exists []; now split; [| left]].
      destruct (Driver.count _ _) as [[err |] n];
        exists [Count filter]; now split; [| right]. }
    destruct Hcalls as (rest & Hcalls & Hrest). exists rest.
    now repeat split.
Qed.

(** X8: against a store that answers queries as the reference store does, a
    page requested with a skip of at least 0 and a positive take that does
    not exceed the maximum page size is the window of the list:
    getPageByFilter returns the items of getListByFilter for the same filter,
    without the first skip items and cut after take items. *)
Theorem page_is_window_of_list :
  forall (this : IdentifiableMongoDbPersistence.t) (cid : option string)
         (docs : list stored) (filter : Json.object) (skip take : Z)
         (total : option bool),
    (forall st,
        exec (_model this) st
        = (None, Some (DocumentStore.find docs (stFilter st) (stSkip st)
                         (stLimit st)))) ->
    (forall f, Driver.count (_model this) f = (None, DocumentStore.count docs f)) ->
    (0 <= skip)%Z ->
    (0 < take)%Z ->
    (take <= _maxPageSize this)%Z ->
    exists items page,
      snd (getListByFilter this cid filter None None) = Called None (Some items) /\
      items = map convertToPublic (List.filter (DocumentStore.matches filter) docs) /\
      snd (getPageByFilter this cid filter
             (Some {| PagingParams.skip := Some skip; PagingParams.take := Some take;
                      PagingParams.total := total |}) None None)
      = Called None (Some page) /\
      DataPage.data page = firstn (Z.to_nat take) (skipn (Z.to_nat skip) items).
Proof.
  intros this cid docs filter skip take total Hexec Hcount Hskip Htake Hmax.
  assert (Hz : (take =? 0)%Z = false) by (apply Z.eqb_neq; lia).
  apply Z.leb_le in Hskip.
  assert (Hpage :
    exists page,
      snd (getPageByFilter this cid filter
             (Some {| PagingParams.skip := Some skip; PagingParams.take := Some take;
                      PagingParams.total := total |}) None None)
      = Called None (Some page) /\
      DataPage.data page
      = map convertToPublic
          (firstn (Z.to_nat take)
             (skipn (Z.to_nat skip)
                (List.filter (DocumentStore.matches filter) docs)))).
  { unfold getPageByFilter. rewrite Hexec, Hcount.
    unfold pageStatement, PagingParams.getSkip, PagingParams.getTake.
    cbn [PagingParams.skip PagingParams.take]. rewrite Hskip.
    cbn [Driver.find Driver.skip Driver.limit stFilter stSkip stLimit].
    unfold DocumentStore.find, DocumentStore.applyLimit.
    rewrite Hz, Zabs2Nat.abs_nat_nonneg by lia.
    destruct (PagingParams.wantsTotal _); eexists; split; reflexivity. }
  destruct Hpage as (page & Hpage & Hdata).
  exists (map convertToPublic (List.filter (DocumentStore.matches filter) docs)),
    page.
  split.
  { unfold getListByFilter. rewrite Hexec. reflexivity. }
  split; [reflexivity |].
  split; [exact Hpage |].
  now rewrite Hdata, skipn_map, firstn_map.
Qed.

Lemma page_is_window_of_list_witness :
  exists items page,
    snd (getListByFilter
           {| _collection := "dummies";
              _model := DocumentStore.querying Samples.dummies;
              _maxPageSize := 100 |} None [("key", Json.VString "a")] None None)
    = Called None (Some items) /\
    items = map convertToPublic
              (List.filter (DocumentStore.matches [("key", Json.VString "a")])
                 Samples.dummies) /\
    snd (getPageByFilter
           {| _collection := "dummies";
              _model := DocumentStore.querying Samples.dummies;
              _maxPageSize := 100 |} None [("key", Json.VString "a")]
           (Some {| PagingParams.skip := Some 1%Z; PagingParams.take := Some 3%Z;
                    PagingParams.total := Some true |}) None None)
    = Called None (Some page) /\
    DataPage.data page = firstn (Z.to_nat 3) (skipn (Z.to_nat 1) items).
Proof.
  apply (page_is_window_of_list
           {| _collection := "dummies";
              _model := DocumentStore.querying Samples.dummies;
              _maxPageSize := 100 |} None Samples.dummies
           [("key", Json.VString "a")] 1%Z 3%Z (Some true)).
  - intros st. reflexivity.
  - intros f. reflexivity.
  - lia.
  - lia.
  - cbn. lia.
Defined.

(** X9: getOneRandom counts first and stops with the count's error without
    running any query; otherwise it runs one query over the same filter with
    limit 1 and a skip that is the random position, or 0 when that position
    is negative, and hands the callback the error of that query together
    with the conversion of its first item, null when there is none. *)
Theorem getOneRandom_statement :
  forall (this : IdentifiableMongoDbPersistence.t) (random : Z -> Z -> Z)
         (cid : option string) (filter : Json.object),
    (forall err n,
        Driver.count (_model this) filter = (Some err, n) ->
        getOneRandom this random cid filter
        = ([Count filter], Called (Some err) None)) /\
    (forall n,
        Driver.count (_model this) filter = (None, n) ->
        exists st,
          getOneRandom this random cid filter
          = ([Count filter; Exec st],
             Called (fst (exec (_model this) st))
               (convertToPublic (firstItem (snd (exec (_model this) st))))) /\
          stFilter st = filter /\
          stSkip st = Some (Z.max 0 (random 0%Z (n - 1)%Z)) /\
          stLimit st = Some 1%Z /\
          stSort st = None /\
          stSelect st = None).
Proof.
  intros this random cid filter. split.
  - intros err n H. unfold getOneRandom. now rewrite H.
  - intros n H. unfold getOneRandom. rewrite H.
    exists (Driver.limit 1
              (Driver.skip
                 (if (0 <=? random 0%Z (n - 1)%Z)%Z then random 0%Z (n - 1)%Z
                  else 0%Z) (Driver.find filter))).
    split.
    + destruct (exec _ _) as [err items]. reflexivity.
    + cbn [Driver.find Driver.skip Driver.limit stFilter stSkip stLimit stSort
           stSelect].
      repeat split.
      destruct (Z.leb_spec 0 (random 0%Z (n - 1)%Z)); f_equal; lia.
Qed.

Lemma getOneRandom_statement_witness :
  getOneRandom
    {| _collection := "dummies"; _model := DocumentStore.disconnected;
       _maxPageSize := 100 |} (fun lower upper => upper) None
    [("key", Json.VString "a")]
  = ([Count [("key", Json.VString "a")]],
     Called (Some (External "not connected")) None).
Proof.
  apply (proj1 (getOneRandom_statement
                  {| _collection := "dummies"; _model := DocumentStore.disconnected;
                     _maxPageSize := 100 |} (fun lower upper => upper) None
                  [("key", Json.VString "a")])
           (External "not connected") 0%Z).
  reflexivity.
Defined.

(** X10: against a store that answers as the reference store does,
    getOneRandom returns null when nothing matches the filter, whatever the
    random source produces; when documents match and the random position
    lies between 0 and count - 1, it returns the conversion of a stored
    document that matches the filter. *)
Theorem getOneRandom_picks_a_match :
  forall (this : IdentifiableMongoDbPersistence.t) (random : Z -> Z -> Z)
         (cid : option string) (docs : list stored) (filter : Json.object),
    (forall st,
        exec (_model this) st
        = (None, Some (DocumentStore.find docs (stFilter st) (stSkip st)
                         (stLimit st)))) ->
    (forall f, Driver.count (_model this) f = (None, DocumentStore.count docs f)) ->
    let count := DocumentStore.count docs filter in
    (count = 0%Z ->
     snd (getOneRandom this random cid filter) = Called None None) /\
    ((0 <= random 0%Z (count - 1)%Z <= count - 1)%Z ->
     exists d,
       In d docs /\ DocumentStore.matches filter d = true /\
       snd (getOneRandom this random cid filter)
       = Called None (convertToPublic d)).
Proof.
  intros this random cid docs filter Hexec Hcount count.
  unfold getOneRandom. rewrite Hcount, Hexec. fold count.
  cbn [Driver.find Driver.skip Driver.limit stFilter stSkip stLimit snd].
  unfold DocumentStore.find, DocumentStore.applyLimit. cbn [Z.eqb Z.abs_nat Pos.to_nat
    Pos.iter_op Nat.add].
  unfold count, DocumentStore.count.
  set (found := List.filter (DocumentStore.matches filter) docs).
  split.
  - intros Hzero. assert (Hnil : found = []).
    { destruct found; [reflexivity | cbn in Hzero; lia]. }
    rewrite Hnil, skipn_nil. reflexivity.
  - intros Hpos. apply proj1 in Hpos as Hle. apply Z.leb_le in Hle. rewrite Hle.
    set (n := Z.to_nat (random 0%Z (Z.of_nat (List.length found) - 1)%Z)).
    assert (Hn : n < List.length found) by (unfold n; lia).
    destruct (nth_error found n) as [d |] eqn:Hd;
      [| apply nth_error_Some in Hn; contradiction].
    exists d. assert (Hin : In d found) by now apply nth_error_In in Hd.
    apply filter_In in Hin. destruct Hin as [Hin Hm].
    split; [exact Hin | split; [exact Hm |]].
    rewrite <- hd_error_skipn in Hd.
    destruct (skipn n found) as [| d' rest]; [discriminate |].
    cbn in Hd. inversion Hd; subst. reflexivity.
Qed.

Lemma getOneRandom_picks_a_match_witness :
  exists d,
    In d Samples.dummies /\
    DocumentStore.matches [("key", Json.VString "a")] d = true /\
    snd (getOneRandom
           {| _collection := "dummies";
              _model := DocumentStore.querying Samples.dummies;
              _maxPageSize := 100 |} (fun lower upper => upper) None
           [("key", Json.VString "a")])
    = Called None (convertToPublic d).
Proof.
  apply (proj2 (getOneRandom_picks_a_match
                  {| _collection := "dummies";
                     _model := DocumentStore.querying Samples.dummies;
                     _maxPageSize := 100 |} (fun lower upper => upper) None
                  Samples.dummies [("key", Json.VString "a")]
                  (fun st => eq_refl) (fun f => eq_refl))).
  cbn. lia.
Defined.

(** X11: deleteByFilter makes one remove call with the filter it is given
    and hands the driver's error to the callback unchanged, or ends silently
    without a callback; with the empty filter it makes the same call as
    clear, but a driver failure that clear reports as CONNECT_FAILED reaches
    the caller of deleteByFilter as the driver raised it. *)
Theorem deleteByFilter_passes_error_through :
  forall (this : IdentifiableMongoDbPersistence.t) (base : MongoDbPersistence.t)
         (cid : option string) (name : string),
    MongoDbPersistence._collection base = Some name ->
    MongoDbPersistence._model base = Some (_model this) ->
    (forall filter,
        deleteByFilter this cid filter true
        = ([Remove filter], Called (fst (remove (_model this) filter)) tt) /\
        deleteByFilter this cid filter false = ([Remove filter], Silent)) /\
    fst (clear base cid true) = fst (deleteByFilter this cid [] true) /\
    (forall cause n,
        remove (_model this) [] = (Some cause, n) ->
        snd (deleteByFilter this cid [] true) = Called (Some cause) tt /\
        snd (clear base cid true)
        = Called (Some (ConnectionException cid "CONNECT_FAILED"
                          "Connection to mongodb failed" cause)) tt).
Proof.
  intros this base cid name Hc Hm. split; [| split].
  - intros filter. unfold deleteByFilter.
    destruct (remove _ _) as [err n]. now split.
  - unfold clear, deleteByFilter. rewrite Hc, Hm.
    destruct (remove _ _) as [err n]. reflexivity.
  - intros cause n Hr. unfold clear, deleteByFilter. rewrite Hc, Hm, Hr.
    now split.
Qed.

Lemma deleteByFilter_passes_error_through_witness :
  snd (deleteByFilter
         {| _collection := "dummies"; _model := DocumentStore.disconnected;
            _maxPageSize := 100 |} None [] true)
  = Called (Some (External "not connected")) tt /\
  snd (clear {| MongoDbPersistence._collection := Some "dummies";
                MongoDbPersistence._model := Some DocumentStore.disconnected |}
         None true)
  = Called (Some (ConnectionException None "CONNECT_FAILED"
                    "Connection to mongodb failed" (External "not connected"))) tt.
Proof.
  apply (proj2 (proj2 (deleteByFilter_passes_error_through
                         {| _collection := "dummies";
                            _model := DocumentStore.disconnected;
                            _maxPageSize := 100 |}
                         {| MongoDbPersistence._collection := Some "dummies";
                            MongoDbPersistence._model :=
                              Some DocumentStore.disconnected |}
                         None "dummies" eq_refl eq_refl))
           (External "not connected") 0%Z).
  reflexivity.
Defined.

(** X12: create cannot be used without a callback: for every item and every
    driver answer it ends in a TypeError, and for a non-null item this
    happens after the insert has been sent to the driver.  With a callback it
    raises only when the driver reports neither an error nor a document. *)
Theorem create_needs_callback :
  forall (this : IdentifiableMongoDbPersistence.t) (nextLong : string)
         (cid : option string) (item : option Json.object),
    snd (create this nextLong cid item false) = Threw /\
    (forall entity,
        item = Some entity ->
        In (Create (newDocument nextLong entity))
           (fst (create this nextLong cid item false))) /\
    (snd (create this nextLong cid item true) = Threw
     <-> exists entity,
           item = Some entity /\
           Driver.create (_model this) (newDocument nextLong entity)
           = (None, Missing)).
Proof.
  intros this nextLong cid item. split; [| split].
  - destruct item as [entity |]; [| reflexivity]. unfold create.
    destruct (Driver.create _ _) as [[err |] [| o | fields json]]; reflexivity.
  - intros entity ->. rewrite create_calls. apply in_or_app. right. now left.
  - destruct item as [entity |]; cbn [create].
    + unfold create. split.
      * intros H. exists entity. split; [reflexivity |].
        destruct (Driver.create _ _) as [[err |] [| o | fields json]];
          cbn in H; try discriminate. reflexivity.
      * intros (entity' & Heq & Hc). inversion Heq; subst. now rewrite Hc.
    + split; [discriminate |]. intros (entity & Heq & _). discriminate.
Qed.

Lemma newDocument_keeps (nextLong : string) (item : Json.object) (key : string) :
  key <> "id" -> key <> "_id" ->
  Json.get key (newDocument nextLong item) = Json.get key item /\
  Json.has key (newDocument nextLong item) = Json.has key item.
Proof.
  intros Hid Hunder. unfold newDocument, convertFromPublic.
  rewrite get_set_other, has_set_other, get_omit_other, has_omit_other
    by congruence.
  now split.
Qed.

(** X13: for a non-null entity, create ends its calls with the insert of a
    document, set with the upsert of a document, and update (when the
    entity's id is not null) makes one find-by-id-and-update call with that
    id and a replacement document; apart from id and _id, each of these
    documents has exactly the fields of the entity, with their values. *)
Theorem other_fields_are_kept :
  forall (this : IdentifiableMongoDbPersistence.t) (nextLong : string)
         (cid : option string) (item : Json.object) (callback : bool)
         (key : string),
    key <> "id" ->
    key <> "_id" ->
    (exists asked doc,
        fst (create this nextLong cid (Some item) callback)
        = (asked ++ [Create doc])%list /\
        (asked = [] \/ asked = [NextLong]) /\
        Json.get key doc = Json.get key item /\
        Json.has key doc = Json.has key item) /\
    (exists asked filter doc,
        fst (set this nextLong cid (Some item) callback)
        = (asked ++ [FindOneAndUpdate filter doc
                       {| new := true; upsert := true |}])%list /\
        (asked = [] \/ asked = [NextLong]) /\
        Json.get key doc = Json.get key item /\
        Json.has key doc = Json.has key item) /\
    (Json.isNull (Json.get "id" item) = false ->
     exists doc,
       fst (update this cid (Some item) callback)
       = [FindByIdAndUpdate (Json.get "id" item) (UpdateWith doc)
            {| new := true; upsert := false |}] /\
       Json.get key doc = Json.get key item /\
       Json.has key doc = Json.has key item).
Proof.
  intros this nextLong cid item callback key Hid Hunder.
  destruct (newDocument_keeps nextLong item key Hid Hunder) as [Hget Hhas].
  assert (Hasked : fst (assignId nextLong item) = []
                   \/ fst (assignId nextLong item) = [NextLong]).
  { unfold assignId. destruct (Json.truthy _); [now left | now right]. }
  split; [| split].
  - exists (fst (assignId nextLong item)), (newDocument nextLong item).
    rewrite create_calls. now repeat split.
  - exists (fst (assignId nextLong item)),
      [("_id", Json.get "_id" (newDocument nextLong item))],
      (newDocument nextLong item).
    rewrite set_calls. now repeat split.
  - intros Hnull. exists (convertFromPublic (Json.omit "id" item)).
    unfold update. rewrite Hnull.
    destruct (findByIdAndUpdate _ _ _ _) as [err doc]. cbn [fst].
    unfold convertFromPublic.
    rewrite get_omit_other, has_omit_other by congruence.
    now repeat split.
Qed.

Lemma other_fields_are_kept_witness :
  exists doc,
    fst (update {| _collection := "dummies";
                   _model := DocumentStore.disconnected;
                   _maxPageSize := 100 |} None
           (Some [("id", Json.VString "1"); ("key", Json.VString "a")]) true)
    = [FindByIdAndUpdate (Json.VString "1") (UpdateWith doc)
         {| new := true; upsert := false |}] /\
    Json.get "key" doc = Json.VString "a" /\
    Json.has "key" doc = true.
Proof.
  refine (proj2 (proj2 (other_fields_are_kept
                          {| _collection := "dummies";
                             _model := DocumentStore.disconnected;
                             _maxPageSize := 100 |} "fresh" None
                          [("id", Json.VString "1"); ("key", Json.VString "a")]
                          true "key" _ _)) _); [discriminate | discriminate |].
  reflexivity.
Defined.

End PersistenceExtras.

(** ** Lifecycle: binding the model, configuring, opening and closing *)

Section LifecycleExtras.

Import MongoDbPersistence Lifecycle.

Context {Schema : Type}.
Variable model : option string -> Schema -> Model.

Lemma differs_same (a : option string) : differs a a = false.
Proof.
  destruct a as [a |]; [| reflexivity]. cbn. now rewrite String.eqb_refl.
Qed.

Lemma configure_schema (this : @instance Schema) (setting : option string)
  (options : PersistenceOptions.t) :
  _schema (configure model this setting options) = _schema this.
Proof.
  unfold configure. destruct (_schema this); [| reflexivity].
  now destruct (differs _ _).
Qed.

Lemma configure_keeps_bound (this : @instance Schema) (setting : option string)
  (options : PersistenceOptions.t) :
  Vocabulary.bound this ->
  Vocabulary.bound (configure model this setting options).
Proof.
  unfold Vocabulary.bound, configure. intros H.
  destruct (_schema this) as [schema |] eqn:Hs;
    [| cbn [_model _collection _schema]; exact H].
  destruct (differs _ _) eqn:Hd; cbn [_model _collection _schema];
    [| exact H].
  split; [| discriminate]. intros _. split; [| discriminate].
  unfold getAsStringWithDefault in *. destruct setting; [discriminate |].
  now rewrite differs_same in Hd.
Qed.

Lemma configure_keeps_collection (this : @instance Schema)
  (setting : option string) (options : PersistenceOptions.t) :
  _collection this <> None ->
  _collection (configure model this setting options) <> None.
Proof.
  unfold configure. intros H. destruct (_schema this); [| exact H].
  destruct (differs _ _); [| exact H]. cbn [_collection].
  unfold getAsStringWithDefault. now destruct setting.
Qed.

Lemma configureAll_invariant (P : @instance Schema -> Prop) :
  (forall this setting options, P this -> P (configure model this setting options)) ->
  forall steps this, P this -> P (Vocabulary.configureAll model this steps).
Proof.
  intros Hstep. unfold Vocabulary.configureAll.
  induction steps as [| step steps IH]; intros this H; [exact H |].
  cbn [fold_left]. now apply IH, Hstep.
Qed.

(** X14: after the constructor and any number of calls of configure, the
    model handle exists exactly when the instance has both a collection name
    and a schema, and the schema is the one given to the constructor. *)
Theorem model_bound_iff_collection_and_schema :
  forall (collection : option string) (schema : option Schema)
         (steps : list (option string * PersistenceOptions.t)),
    let this :=
      Vocabulary.configureAll model (construct model collection schema) steps in
    Vocabulary.bound this /\ _schema this = schema.
Proof.
  intros collection schema steps.
  apply (configureAll_invariant
           (fun this => Vocabulary.bound this /\ _schema this = schema)).
  - intros this setting options [Hb Hs]. split.
    + now apply configure_keeps_bound.
    + now rewrite configure_schema.
  - split; [| reflexivity]. unfold Vocabulary.bound, construct.
    cbn [_model _collection _schema].
    destruct collection, schema; split; (discriminate || tauto || auto).
    all: try (intros [? ?]; congruence).
    intros _. split; discriminate.
Qed.

(** X15: the constructor of IdentifiableMongoDbPersistence fails exactly
    when the collection name or the schema is null; an instance it has built
    keeps a bound model through any number of calls of configure, so clear
    on it always issues the remove call and never raises. *)
Theorem identifiable_instance_can_clear :
  (forall (collection : option string) (schema : option Schema),
      (exists err, constructIdentifiable model collection schema = inr err)
      <-> (collection = None \/ schema = None)) /\
  (forall (collection : option string) (schema : option Schema)
          (this : @instance Schema)
          (steps : list (option string * PersistenceOptions.t))
          (cid : option string) (callback : bool),
      constructIdentifiable model collection schema = inl this ->
      let configured := Vocabulary.configureAll model this steps in
      _model configured <> None /\
      fst (clear (cleared configured) cid callback) = [Remove []] /\
      snd (clear (cleared configured) cid callback) <> Threw).
Proof.
  split.
  - intros collection schema. unfold constructIdentifiable.
    destruct collection, schema; split;
      try (intros [err H]; discriminate);
      try (intros [H | H]; discriminate);
      try (intros _; eexists; reflexivity); auto.
  - intros collection schema this steps cid callback Hc configured.
    assert (Hinv : Vocabulary.bound configured /\ _collection configured <> None
                   /\ _schema configured <> None).
    { apply (configureAll_invariant
               (fun i => Vocabulary.bound i /\ _collection i <> None
                         /\ _schema i <> None)).
      - intros i setting options (Hb & Hcol & Hs). split; [| split].
        + now apply configure_keeps_bound.
        + now apply configure_keeps_collection.
        + now rewrite configure_schema.
      - unfold constructIdentifiable in Hc.
        destruct collection as [c |], schema as [s |]; try discriminate.
        inversion Hc; subst. unfold Vocabulary.bound, construct.
        cbn [_model _collection _schema].
        repeat split; discriminate. }
    destruct Hinv as (Hb & Hcol & Hs).
    assert (Hm : _model configured <> None) by (apply Hb; now split).
    split; [exact Hm |].
    unfold clear, cleared.
    cbn [MongoDbPersistence._collection MongoDbPersistence._model].
    destruct (_collection configured); [| congruence].
    destruct (_model configured); [| congruence].
    split; [reflexivity |]. now destruct callback.
Qed.

(** X17: on an instance without a schema configure ignores the collection
    setting: collection name and model handle stay as they were.  With a
    schema the collection becomes the configured name, a missing setting
    leaves name and model untouched, and a new name rebinds the model to
    that name and the schema. *)
Theorem configure_collection :
  forall (this : @instance Schema) (setting : option string)
         (options : PersistenceOptions.t),
    let configured := configure model this setting options in
    _options configured = options /\
    _database configured = _database this /\
    (_schema this = None ->
     _collection configured = _collection this /\
     _model configured = _model this) /\
    (forall schema,
        _schema this = Some schema ->
        (setting = None ->
         _collection configured = _collection this /\
         _model configured = _model this) /\
        (forall name,
            setting = Some name ->
            _collection configured = Some name /\
            (_collection this <> Some name ->
             _model configured = Some (model (Some name) schema)) /\
            (_collection this = Some name ->
             _model configured = _model this))).
Proof.
  intros this setting options configured. unfold configured, configure.
  split; [destruct (_schema this); [destruct (differs _ _) |]; reflexivity |].
  split; [destruct (_schema this); [destruct (differs _ _) |]; reflexivity |].
  split.
  - intros ->. now split.
  - intros schema ->. split.
    + intros ->. cbn [getAsStringWithDefault]. rewrite differs_same. now split.
    + intros name ->. cbn [getAsStringWithDefault].
      destruct (_collection this) as [old |] eqn:Hold; cbn [differs].
      * destruct (String.eqb_spec name old) as [-> | Hne];
          cbn [negb _collection _model].
        -- repeat split; congruence.
        -- repeat split; congruence.
      * repeat split; congruence.
Qed.

End LifecycleExtras.

Section LifecycleSamples.

Import MongoDbPersistence Lifecycle.

Lemma identifiable_instance_can_clear_witness :
  fst (clear
         (cleared
            (Vocabulary.configureAll (fun _ (_ : unit) => DocumentStore.disconnected)
               (construct (fun _ (_ : unit) => DocumentStore.disconnected)
                  (Some "dummies") (Some tt))
               [(Some "others", PersistenceOptions.empty);
                (None, PersistenceOptions.empty)]))
         None true)
  = [Remove []].
Proof.
  refine (proj1 (proj2 (proj2 (identifiable_instance_can_clear
                                 (fun _ (_ : unit) => DocumentStore.disconnected))
                          (Some "dummies") (Some tt) _ _ None true _))).
  reflexivity.
Defined.

Lemma configure_collection_witness :
  _collection
    (configure (fun _ (_ : unit) => DocumentStore.disconnected)
       (construct (fun _ (_ : unit) => DocumentStore.disconnected)
          (Some "dummies") None)
       (Some "others") PersistenceOptions.empty)
  = Some "dummies".
Proof.
  refine (proj1 (proj1 (proj2 (proj2
            (configure_collection
               (fun _ (_ : unit) => DocumentStore.disconnected)
               (construct (fun _ (_ : unit) => DocumentStore.disconnected)
                  (Some "dummies") None)
               (Some "others") PersistenceOptions.empty))) _)).
  reflexivity.
Defined.

End LifecycleSamples.

(** ** Opening and closing the connection *)

Section OpenExtras.

Import MongoDbPersistence Lifecycle.
Import MongoDbConnectionResolver.

Context {Schema : Type}.

Lemma open_events (this : @instance Schema) (cid : option string) (uri : string)
  (connect : method -> string -> server -> connecting) (callback : bool) :
  snd (fst (open this cid (Resolved uri) connect callback))
  = [Connect
       (if PersistenceOptions.replica_set (_options this)
           || (0 <? indexOf "replicaSet" uri)%Z
        then OpenSet else Open)
       uri (composeSettings (_options this))].
Proof.
  unfold open. destruct (connect _ _ _) as [ex | [err |] name]; reflexivity.
Qed.

Lemma indexOf_replicaSet (rest : string) :
  (0 <? indexOf "replicaSet" ("mongodb://" ++ rest))%Z = true
  <-> exists n, substring n 10 ("mongodb://" ++ rest) = "replicaSet".
Proof.
  unfold indexOf. split.
  - destruct (index 0 "replicaSet" ("mongodb://" ++ rest)) as [p |] eqn:Hi;
      [| discriminate].
    intros _. exists p. exact (index_correct1 _ _ _ _ Hi).
  - intros [n Hn].
    destruct (index 0 "replicaSet" ("mongodb://" ++ rest)) as [p |] eqn:Hi.
    + destruct p as [| p]; [| apply Z.ltb_lt; lia].
      apply index_correct1 in Hi. cbn in Hi. discriminate.
    + exfalso.
      apply (index_correct3 0 n "replicaSet" ("mongodb://" ++ rest) Hi);
        [discriminate | lia | exact Hn].
Qed.

(** X18: open calls the driver's connect at most once and only with the uri
    that the resolver produced; the settings are those composed from the
    options, and the cluster-aware method openSet is used exactly when the
    replica_set option is set or "replicaSet" occurs in the uri at a
    position greater than 0. *)
Theorem open_connects_after_resolution :
  forall (this : @instance Schema) (cid : option string)
         (resolved : resolution)
         (connect : method -> string -> server -> connecting) (callback : bool)
         (openMethod : method) (uri : string) (settings : server),
    In (Connect openMethod uri settings)
       (snd (fst (open this cid resolved connect callback))) ->
    resolved = Resolved uri /\
    settings = composeSettings (_options this) /\
    (openMethod = OpenSet
     <-> (PersistenceOptions.replica_set (_options this) = true \/
          (0 < indexOf "replicaSet" uri)%Z)) /\
    snd (fst (open this cid resolved connect callback))
    = [Connect openMethod uri settings].
Proof.
  intros this cid resolved connect callback openMethod uri settings Hin.
  destruct resolved as [err | uri' |].
  - cbn in Hin. destruct callback; cbn in Hin; [contradiction |].
    destruct Hin as [H | []]; discriminate.
  - rewrite open_events in *. destruct Hin as [H | []].
    inversion H; subst. clear H.
    split; [reflexivity | split; [reflexivity | split; [| reflexivity]]].
    destruct (PersistenceOptions.replica_set (_options this)); cbn [orb].
    + split; auto.
    + destruct (Z.ltb_spec 0 (indexOf "replicaSet" uri)); split;
        auto; try discriminate.
      intros [H' | H']; [discriminate | lia].
  - cbn in Hin. contradiction.
Qed.

(** X19: an error that open hands to its callback is either the resolver's
    error, passed on as it is before any connect call, or a
    ConnectionException with code CONNECT_FAILED whose cause is what the
    driver threw or reported; in both cases the instance is unchanged.  An
    error that close hands to its callback is always a ConnectionException
    with code DISCONNECT_FAILED whose cause is the driver's error. *)
Theorem lifecycle_errors_are_wrapped :
  (forall (this : @instance Schema) (cid : option string) (resolved : resolution)
          (connect : method -> string -> server -> connecting) (callback : bool)
          (err : error),
      snd (open this cid resolved connect callback) = Called (Some err) tt ->
      fst (fst (open this cid resolved connect callback)) = this /\
      ((resolved = Failed err /\
        snd (fst (open this cid resolved connect callback)) = []) \/
       exists cause openMethod uri settings,
         err = ConnectionException cid "CONNECT_FAILED"
                 "Connection to mongodb failed" cause /\
         snd (fst (open this cid resolved connect callback))
         = [Connect openMethod uri settings] /\
         (connect openMethod uri settings = ConnectThrows cause \/
          exists name,
            connect openMethod uri settings = ConnectAnswers (Some cause) name))) /\
  (forall (this : @instance Schema) (cid : option string) (closing : option error)
          (callback : bool) (err : error),
      snd (close this cid closing callback) = Called (Some err) tt ->
      exists cause,
        closing = Some cause /\
        err = ConnectionException cid "DISCONNECT_FAILED"
                "Disconnect from mongodb failed: " cause).
Proof.
  split.
  - intros this cid resolved connect callback err H.
    destruct resolved as [e | uri |]; cbn in H |- *.
    + destruct callback; cbn in H |- *; [| discriminate].
      inversion H; subst. split; [reflexivity |]. left. now split.
    + unfold open in *.
      destruct (connect _ uri _) as [ex | [e |] name] eqn:Hc; cbn in H |- *;
        destruct callback; try discriminate; inversion H; subst;
        (split; [reflexivity |]); right;
        eexists; eexists; eexists; eexists;
        (split; [reflexivity | split; [reflexivity |]]).
      * left. exact Hc.
      * right. exists name. exact Hc.
    + discriminate.
  - intros this cid closing callback err H. unfold close in H. cbn in H.
    destruct callback; [| discriminate].
    destruct closing as [cause |]; inversion H; subst.
    exists cause. now split.
Qed.

(** X20: open never changes the collection name, the schema, the model
    handle or the options; a database name that is already set is kept, and
    otherwise a successful connect stores the name the connection reports.
    The callback is told of success only when the resolver produced a uri. *)
Theorem open_keeps_database_name :
  forall (this : @instance Schema) (cid : option string) (resolved : resolution)
         (connect : method -> string -> server -> connecting) (callback : bool),
    let opened := fst (fst (open this cid resolved connect callback)) in
    _collection opened = _collection this /\
    _schema opened = _schema this /\
    _model opened = _model this /\
    _options opened = _options this /\
    (truthy (_database this) = true -> _database opened = _database this) /\
    (forall uri name,
        resolved = Resolved uri ->
        (forall openMethod settings,
            connect openMethod uri settings = ConnectAnswers None name) ->
        _database opened = or_else (_database this) name /\
        snd (open this cid resolved connect callback)
        = (if callback then Called None tt else Silent)) /\
    (snd (open this cid resolved connect callback) = Called None tt ->
     exists uri, resolved = Resolved uri).
Proof.
  intros this cid resolved connect callback opened. unfold opened, open.
  destruct resolved as [err | uri |].
  - destruct callback; cbn [fst snd];
      (do 5 (split; [reflexivity |]); split;
       [intros uri name Hu; discriminate | intros H; discriminate]).
  - destruct (connect _ uri _) as [ex | [e |] name] eqn:Hc; cbn [fst snd].
    + do 5 (split; [reflexivity |]). split.
      * intros u n Hu Hall. inversion Hu; subst. rewrite Hall in Hc.
        discriminate.
      * intros _. now exists uri.
    + do 5 (split; [reflexivity |]). split.
      * intros u n Hu Hall. inversion Hu; subst. rewrite Hall in Hc.
        discriminate.
      * intros _. now exists uri.
    + cbn [_collection _schema _model _options _database].
      do 4 (split; [reflexivity |]). split; [| split].
      * intros Ht. unfold or_else. now rewrite Ht.
      * intros u n Hu Hall. inversion Hu; subst. rewrite Hall in Hc.
        inversion Hc; subst. now split.
      * intros _. now exists uri.
  - cbn [fst snd].
    do 5 (split; [reflexivity |]). split;
      [intros uri name Hu; discriminate | intros H; discriminate].
Qed.

(** X21: without a callback, open raises exactly when the resolver raised
    or the driver's connect call throws; in every other case it ends
    silently, and a resolver error is sent to the logger.  With a callback
    open raises only when the resolver raised, and nothing is logged as an
    error. *)
Theorem open_without_callback :
  forall (this : @instance Schema) (cid : option string) (resolved : resolution)
         (connect : method -> string -> server -> connecting),
    let silent := open this cid resolved connect false in
    let heard := open this cid resolved connect true in
    (snd silent = Threw
     <-> (resolved = Raised \/
          exists uri openMethod settings ex,
            resolved = Resolved uri /\
            snd (fst silent) = [Connect openMethod uri settings] /\
            connect openMethod uri settings = ConnectThrows ex)) /\
    (snd silent <> Threw -> snd silent = Silent) /\
    (forall err message,
        In (LogError err message) (snd (fst silent))
        <-> (resolved = Failed err /\
             message = "Failed to resolve MongoDb connection")) /\
    (snd heard = Threw <-> resolved = Raised) /\
    (forall err message, ~ In (LogError err message) (snd (fst heard))).
Proof.
  intros this cid resolved connect silent heard. unfold silent, heard, open.
  destruct resolved as [err | uri |].
  - cbn [fst snd]. split; [| split; [| split; [| split]]].
    + split; [discriminate |].
      intros [H | (uri & m & s & ex & H & _)]; discriminate.
    + reflexivity.
    + intros e message. split.
      * intros [H | []]. inversion H; subst. now split.
      * intros [H ->]. inversion H; subst. now left.
    + split; discriminate.
    + intros e message [].
  - destruct (connect _ uri _) as [ex | [e |] name] eqn:Hc; cbn [fst snd];
      (split; [| split; [| split; [| split]]]).
    + split; [| reflexivity]. intros _. right.
      exists uri. eexists. eexists. exists ex.
      split; [reflexivity | split; [reflexivity | exact Hc]].
    + intros H. now contradiction H.
    + intros e message. split.
      * intros [H | []]. discriminate.
      * intros [H _]. discriminate.
    + split; discriminate.
    + intros e message [H | []]. discriminate.
    + split; [discriminate |].
      intros [H | (u & m & s & x & Hu & Hev & Hx)]; [discriminate |].
      inversion Hev; subst. rewrite Hc in Hx. discriminate.
    + reflexivity.
    + intros e' message. split.
      * intros [H | []]. discriminate.
      * intros [H _]. discriminate.
    + split; discriminate.
    + intros e' message [H | []]. discriminate.
    + split; [discriminate |].
      intros [H | (u & m & s & x & Hu & Hev & Hx)]; [discriminate |].
      inversion Hev; subst. rewrite Hc in Hx. discriminate.
    + reflexivity.
    + intros e' message. split.
      * intros [H | []]. discriminate.
      * intros [H _]. discriminate.
    + split; discriminate.
    + intros e' message [H | []]. discriminate.
  - cbn [fst snd]. split; [| split; [| split; [| split]]].
    + split; [| reflexivity]. intros _. now left.
    + intros H. now contradiction H.
    + intros e message. split; [intros [] | intros [H _]; discriminate].
    + split; reflexivity.
    + intros e message [].
Qed.

(** X22: for a uri that begins with "mongodb://", as every composed uri
    does, and with the replica_set option off, open uses openSet exactly
    when "replicaSet" occurs somewhere in the uri. *)
Theorem replica_set_detected_in_uri :
  forall (this : @instance Schema) (cid : option string)
         (connect : method -> string -> server -> connecting) (callback : bool)
         (rest : string),
    PersistenceOptions.replica_set (_options this) = false ->
    let uri := "mongodb://" ++ rest in
    snd (fst (open this cid (Resolved uri) connect callback))
    = [Connect OpenSet uri (composeSettings (_options this))]
    <-> exists n, substring n 10 uri = "replicaSet".
Proof.
  intros this cid connect callback rest Hflag uri. unfold uri.
  rewrite open_events, Hflag. cbn [orb]. rewrite <- indexOf_replicaSet.
  destruct (0 <? indexOf "replicaSet" ("mongodb://" ++ rest))%Z; split;
    try reflexivity; discriminate.
Qed.

End OpenExtras.

Section OpenSamples.

Import MongoDbPersistence Lifecycle.
Import MongoDbConnectionResolver.

Lemma open_connects_after_resolution_witness :
  snd (fst (open (construct (fun _ (_ : unit) => DocumentStore.disconnected)
                    (Some "dummies") (Some tt))
              None (Resolved "mongodb://a:27017,b:27018/test?replicaSet=rs0")
              (fun _ _ _ => ConnectAnswers None (Some "test")) true))
  = [Connect OpenSet "mongodb://a:27017,b:27018/test?replicaSet=rs0"
       (composeSettings PersistenceOptions.empty)].
Proof.
  refine (proj2 (proj2 (proj2
            (open_connects_after_resolution
               (construct (fun _ (_ : unit) => DocumentStore.disconnected)
                  (Some "dummies") (Some tt))
               None (Resolved "mongodb://a:27017,b:27018/test?replicaSet=rs0")
               (fun _ _ _ => ConnectAnswers None (Some "test")) true
               OpenSet "mongodb://a:27017,b:27018/test?replicaSet=rs0"
               (composeSettings PersistenceOptions.empty) _)))).
  left. reflexivity.
Defined.

Lemma lifecycle_errors_are_wrapped_witness :
  exists cause,
    Some (External "socket closed") = Some cause /\
    ConnectionException (Some "123") "DISCONNECT_FAILED"
      "Disconnect from mongodb failed: " (External "socket closed")
    = ConnectionException (Some "123") "DISCONNECT_FAILED"
        "Disconnect from mongodb failed: " cause.
Proof.
  apply (proj2 (@lifecycle_errors_are_wrapped unit)
           (construct (fun _ (_ : unit) => DocumentStore.disconnected)
              (Some "dummies") (Some tt))
           (Some "123") (Some (External "socket closed")) true).
  reflexivity.
Defined.

Lemma replica_set_detected_in_uri_witness :
  snd (fst (open (construct (fun _ (_ : unit) => DocumentStore.disconnected)
                    (Some "dummies") (Some tt))
              None (Resolved ("mongodb://" ++ "h/db?replicaSet=rs0"))
              (fun _ _ _ => ConnectThrows (External "refused")) false))
  = [Connect OpenSet ("mongodb://" ++ "h/db?replicaSet=rs0")
       (composeSettings PersistenceOptions.empty)].
Proof.
  apply (proj2 (replica_set_detected_in_uri
                  (construct (fun _ (_ : unit) => DocumentStore.disconnected)
                     (Some "dummies") (Some tt))
                  None (fun _ _ _ => ConnectThrows (External "refused")) false
                  "h/db?replicaSet=rs0" eq_refl)).
  exists 15. reflexivity.
Defined.

End OpenSamples.
